(** * langchain_ibm.chat_models: a shallow embedding and its properties

    The development follows [libs/ibm/langchain_ibm/chat_models.py]:
    Python values are a small inductive type, exceptions an error monad,
    dictionaries insertion-ordered association lists, and strings lists of
    Unicode code points.  Library calls the module relies on ([json.loads],
    [repr], the framework's prompt stringification) are section variables;
    a concrete JSON reader for a documented fragment instantiates them in
    the closed examples. *)

From Stdlib Require Import ZArith NArith List Bool Ascii String Lia.
From Stdlib Require Import Numbers.DecimalString.
Import ListNotations.

Set Implicit Arguments.
Set Warnings "-register-all".
Local Open Scope list_scope.

(** ** Strings: Python [str] as a list of code points *)

Definition char := N.
Definition str := list char.

Fixpoint u (s : string) : str :=
  match s with
  | EmptyString => []
  | String a r => N_of_ascii a :: u r
  end.

(** Literals that contain double quotes are written with apostrophes. *)
Definition uq (s : string) : str :=
  map (fun c => if N.eqb c 39 then 34%N else c) (u s).

Definition str_eqb (a b : str) : bool :=
  if list_eq_dec N.eq_dec a b then true else false.

(** Characters for which [Py_UNICODE_ISSPACE] holds: what [str.strip()] drops
    and what [\s] matches in a [str] pattern. *)
Definition isspace (c : char) : bool :=
  ((9 <=? c) && (c <=? 13) || (28 <=? c) && (c <=? 32)
   || (c =? 133) || (c =? 160) || (c =? 5760)
   || (8192 <=? c) && (c <=? 8202)
   || (c =? 8232) || (c =? 8233) || (c =? 8239) || (c =? 8287)
   || (c =? 12288))%N.

Fixpoint lstrip (s : str) : str :=
  match s with
  | [] => []
  | c :: r => if isspace c then lstrip r else s
  end.

Definition rstrip (s : str) : str := rev (lstrip (rev s)).

(** [s.strip()] *)
Definition strip (s : str) : str := rstrip (lstrip s).

Fixpoint startswith (p s : str) : bool :=
  match p, s with
  | [], _ => true
  | _ :: _, [] => false
  | a :: p', b :: s' => N.eqb a b && startswith p' s'
  end.

Fixpoint replace_from (old new : str) (skip : nat) (s : str) : str :=
  match s with
  | [] => []
  | c :: r =>
      match skip with
      | S k => replace_from old new k r
      | O =>
          if startswith old s
          then new ++ replace_from old new (List.length old - 1) r
          else c :: replace_from old new 0 r
      end
  end.

(** [s.replace(old, new)]: every non-overlapping occurrence, left to right. *)
Definition replace (s old new : str) : str :=
  match old with
  | [] => new ++ flat_map (fun c => c :: new) s
  | _ :: _ => replace_from old new 0 s
  end.

(** [re.findall(r'[...]+', s)] for a character class [p]: the maximal
    non-empty runs of characters in the class, in order. *)
Definition flush (acc : str) : list str :=
  match acc with
  | [] => []
  | _ :: _ => [rev acc]
  end.

Fixpoint findall_runs (p : char -> bool) (acc : str) (s : str) : list str :=
  match s with
  | [] => flush acc
  | c :: r =>
      if p c then findall_runs p (c :: acc) r
      else flush acc ++ findall_runs p [] r
  end.

Definition findall_class (p : char -> bool) (s : str) : list str :=
  findall_runs p [] s.

(** [''.join(parts)] *)
Definition join_empty (parts : list str) : str := List.concat parts.

(** [re.sub(r"\s+", " ", s)] *)
Fixpoint sub_ws (in_run : bool) (s : str) : str :=
  match s with
  | [] => []
  | c :: r =>
      if isspace c
      then (if in_run then sub_ws true r else 32%N :: sub_ws true r)
      else c :: sub_ws false r
  end.

Definition re_sub_ws (s : str) : str := sub_ws false s.

(** The class [[A-Za-z0-9\s,.-]] of [_post_processing]. *)
Definition pattern_class (c : char) : bool :=
  ((65 <=? c) && (c <=? 90) || (97 <=? c) && (c <=? 122)
   || (48 <=? c) && (c <=? 57) || isspace c
   || (c =? 44) || (c =? 46) || (c =? 45))%N.

(** ** Python values *)

Inductive pyval : Type :=
| PyNone
| PyBool (b : bool)
| PyInt (z : Z)
| PyStr (s : str)
| PyList (l : list pyval)
| PyDict (d : list (str * pyval)).

(** A [dict] keeps insertion order; keys are strings. *)
Definition dict := list (str * pyval).

Fixpoint dict_get (d : dict) (k : str) : option pyval :=
  match d with
  | [] => None
  | (k', v) :: r => if str_eqb k' k then Some v else dict_get r k
  end.

Definition dict_has (d : dict) (k : str) : bool :=
  match dict_get d k with Some _ => true | None => false end.

(** [d[k] = v]: an existing key keeps its position. *)
Fixpoint dict_set (d : dict) (k : str) (v : pyval) : dict :=
  match d with
  | [] => [(k, v)]
  | (k', v') :: r =>
      if str_eqb k' k then (k', v) :: r else (k', v') :: dict_set r k v
  end.

(** [del d[k]] for a key that is present. *)
Fixpoint dict_del (d : dict) (k : str) : dict :=
  match d with
  | [] => []
  | (k', v') :: r => if str_eqb k' k then r else (k', v') :: dict_del r k
  end.

(** [a | b] and [a.update(b)] *)
Definition dict_merge (a b : dict) : dict :=
  fold_left (fun acc kv => dict_set acc (fst kv) (snd kv)) b a.

(** [d.get(k)] and [d.get(k, default)] *)
Definition dict_get_default (d : dict) (k : str) (dflt : pyval) : pyval :=
  match dict_get d k with Some v => v | None => dflt end.

Definition dict_get_none (d : dict) (k : str) : pyval :=
  dict_get_default d k PyNone.

(** Truth value of an object in a condition. *)
Definition truthy (v : pyval) : bool :=
  match v with
  | PyNone => false
  | PyBool b => b
  | PyInt z => negb (Z.eqb z 0)
  | PyStr s => match s with [] => false | _ => true end
  | PyList l => match l with [] => false | _ => true end
  | PyDict d => match d with [] => false | _ => true end
  end.

(** [v == "literal"] for a string literal. *)
Definition eq_str (v : pyval) (s : str) : bool :=
  match v with
  | PyStr t => str_eqb t s
  | _ => false
  end.

(** ** Exceptions *)

Inductive exn : Type :=
| TypeError
| ValueError (payload : pyval)
| KeyError (key : str)
| AttributeError
| JSONDecodeError
| Warning.

Inductive result (A : Type) : Type :=
| Ok (a : A)
| Raise (e : exn).

Arguments Ok {A} a.
Arguments Raise {A} e.

Definition bind {A B} (c : result A) (k : A -> result B) : result B :=
  match c with
  | Ok a => k a
  | Raise e => Raise e
  end.

Notation "x <- c ;; k" := (bind c (fun x => k))
  (at level 61, c at next level, right associativity).

Fixpoint mapM {A B} (f : A -> result B) (l : list A) : result (list B) :=
  match l with
  | [] => Ok []
  | a :: r => b <- f a ;; bs <- mapM f r ;; Ok (b :: bs)
  end.

(** [v[k]] for a string key [k]. *)
Definition getitem (v : pyval) (k : str) : result pyval :=
  match v with
  | PyDict d =>
      match dict_get d k with
      | Some x => Ok x
      | None => Raise (KeyError k)
      end
  | _ => Raise TypeError
  end.

(** [for x in v]: the elements iterated over. *)
Definition py_iter (v : pyval) : result (list pyval) :=
  match v with
  | PyList l => Ok l
  | PyDict d => Ok (map (fun kv => PyStr (fst kv)) d)
  | PyStr s => Ok (map (fun c => PyStr [c]) s)
  | _ => Raise TypeError
  end.

(** [a + b] where [a] is known to be a [str]. *)
Definition str_add (a : str) (b : pyval) : result str :=
  match b with
  | PyStr s => Ok (a ++ s)
  | _ => Raise TypeError
  end.

(** [a + b] where [a] is known to be an [int]; [bool] is a subtype of [int]. *)
Definition int_add (a : Z) (b : pyval) : result Z :=
  match b with
  | PyInt z => Ok (a + z)%Z
  | PyBool t => Ok (a + (if t then 1 else 0))%Z
  | _ => Raise TypeError
  end.

(** ** [json.dumps] with its default arguments *)

Definition hexdigit (d : N) : char :=
  (if d <? 10 then 48 + d else 87 + d)%N.

(** [k] lower-case hexadecimal digits of [n], most significant first. *)
Fixpoint hex_fixed (k : nat) (n : N) : str :=
  match k with
  | O => []
  | S k' => hex_fixed k' (n / 16)%N ++ [hexdigit (n mod 16)%N]
  end.

Definition decimal (z : Z) : str := u (NilZero.string_of_int (Z.to_int z)).

Definition escape_u (c : N) : str := u "\u" ++ hex_fixed 4 c.

(** One character of a string under [ensure_ascii=True]. *)
Definition escape_char (c : char) : str :=
  (if c =? 34 then u "\" ++ [34]
   else if c =? 92 then u "\\"
   else if c =? 10 then u "\n"
   else if c =? 13 then u "\r"
   else if c =? 9 then u "\t"
   else if c =? 8 then u "\b"
   else if c =? 12 then u "\f"
   else if (32 <=? c) && (c <=? 126) then [c]
   else if c <? 65536 then escape_u c
   else escape_u (55296 + ((c - 65536) / 1024) mod 1024)
        ++ escape_u (56320 + (c - 65536) mod 1024))%N.

Definition json_quote (s : str) : str :=
  [34%N] ++ flat_map escape_char s ++ [34%N].

Fixpoint join (sep : str) (parts : list str) : str :=
  match parts with
  | [] => []
  | [p] => p
  | p :: rest => p ++ sep ++ join sep rest
  end.

Fixpoint json_dumps (v : pyval) : str :=
  match v with
  | PyNone => u "null"
  | PyBool true => u "true"
  | PyBool false => u "false"
  | PyInt z => decimal z
  | PyStr s => json_quote s
  | PyList l => u "[" ++ join (u ", ") (map json_dumps l) ++ u "]"
  | PyDict d =>
      u "{"
      ++ join (u ", ")
           (map (fun kv =>
                   match kv with
                   | (k, x) => json_quote k ++ u ": " ++ json_dumps x
                   end) d)
      ++ u "}"
  end.

(** ** Framework messages (langchain_core.messages)

    A message value records the arguments of the constructor call the
    module makes.  The framework's constructors are not part of this module:
    what they do with the arguments afterwards (they refuse a [None] content
    or a tool call without a name, turn other contents into strings and
    rewrite tool-call entries) is not modelled, except that [ToolMessage] has
    no default for [tool_call_id].  On a string content without tool calls
    the constructor keeps what it is given. *)

Record UsageMetadata : Type := {
  input_tokens : Z;
  output_tokens : Z;
  total_tokens : Z
}.

Inductive BaseMessage : Type :=
| ChatMessage (role : str) (content : pyval) (additional_kwargs : dict)
| HumanMessage (content : pyval) (additional_kwargs : dict)
| AIMessage (content : pyval) (additional_kwargs : dict)
            (tool_calls : pyval) (usage_metadata : option UsageMetadata)
| SystemMessage (content : pyval) (additional_kwargs : dict)
| FunctionMessage (content : pyval) (additional_kwargs : dict) (name : pyval)
| ToolMessage (content : pyval) (additional_kwargs : dict)
              (tool_call_id : pyval)
| OtherMessage (content : pyval) (additional_kwargs : dict).

Definition msg_content (m : BaseMessage) : pyval :=
  match m with
  | ChatMessage _ c _ | HumanMessage c _ | AIMessage c _ _ _
  | SystemMessage c _ | FunctionMessage c _ _ | ToolMessage c _ _
  | OtherMessage c _ => c
  end.

Definition msg_additional_kwargs (m : BaseMessage) : dict :=
  match m with
  | ChatMessage _ _ k | HumanMessage _ k | AIMessage _ k _ _
  | SystemMessage _ k | FunctionMessage _ k _ | ToolMessage _ k _
  | OtherMessage _ k => k
  end.

(** The role under which the codec files a message kind. *)
Definition msg_role (m : BaseMessage) : option str :=
  match m with
  | ChatMessage r _ _ => Some r
  | HumanMessage _ _ => Some (u "user")
  | AIMessage _ _ _ _ => Some (u "assistant")
  | SystemMessage _ _ => Some (u "system")
  | FunctionMessage _ _ _ => Some (u "function")
  | ToolMessage _ _ _ => Some (u "tool")
  | OtherMessage _ _ => None
  end.

Definition msg_tool_calls (m : BaseMessage) : pyval :=
  match m with
  | AIMessage _ _ t _ => t
  | _ => PyList []
  end.

Definition msg_usage (m : BaseMessage) : option UsageMetadata :=
  match m with
  | AIMessage _ _ _ um => um
  | _ => None
  end.

(** The call [AIMessage(content=c, tool_calls=t)], with the arguments as the
    module passes them. *)
Definition mkAI (c t : pyval) : BaseMessage := AIMessage c [] t None.

(** [message.usage_metadata = um]; only reached for an [AIMessage]. *)
Definition set_usage (m : BaseMessage) (um : UsageMetadata) : BaseMessage :=
  match m with
  | AIMessage c k t _ => AIMessage c k t (Some um)
  | _ => m
  end.

Definition isAIMessage (m : BaseMessage) : bool :=
  match m with AIMessage _ _ _ _ => true | _ => false end.

Record ChatGeneration : Type := {
  message : BaseMessage;
  generation_info : dict
}.

Record ChatResult : Type := {
  generations : list ChatGeneration;
  llm_output : dict
}.

(** ** Tool-call emulator and message codec *)

Section Emulator.

(** [json.loads]: [None] stands for [json.JSONDecodeError]. *)
Variable json_loads : str -> option pyval.

(** The source returns the parsed value itself, which callers test for
    truth. *)
Definition _is_json (input : str) : pyval :=
  match json_loads input with
  | Some v => v
  | None => PyBool false
  end.

Definition _convert_to_json (input : str) : result pyval :=
  match json_loads input with
  | Some v => Ok v
  | None => Raise (ValueError (PyStr (u "Input is not a valid JSON string")))
  end.

Definition tags_to_remove : str :=
  u "<|python_tag|><|start_header_id|>assistant<|end_header_id|>".

Definition cleaned (input_string : str) : str :=
  strip (replace input_string tags_to_remove []).

Definition remove_tags_and_parse (input_string : pyval) : result pyval :=
  match input_string with
  | PyStr s =>
      let cleaned_string := cleaned s in
      if truthy (_is_json cleaned_string)
      then _convert_to_json cleaned_string
      else Ok (PyStr (replace cleaned_string (u "```") []))
  | _ => Raise AttributeError
  end.

Definition _is_valid_tool_call_format (tool : pyval) : bool :=
  match (match tool with PyStr s => json_loads s | _ => Some tool end) with
  | None => false
  | Some tool1 =>
      match (match tool1 with
             | PyList [PyDict d] => Some (PyDict d)
             | PyList _ => None
             | _ => Some tool1
             end) with
      | Some (PyDict d) =>
          match dict_get d (u "args") with
          | Some (PyDict a) => dict_has a (u "query")
          | _ => false
          end
      | _ => false
      end
  end.

(** [tool.update({"id": call_id})] on one element of the loop. *)
Definition update_id (call_id : str) (tool : pyval) : result pyval :=
  match tool with
  | PyDict d => Ok (PyDict (dict_merge d [(u "id", PyStr call_id)]))
  | _ => Raise AttributeError
  end.

Definition _tool_calling (raw_tool_calls : pyval) (call_id : str)
  : result BaseMessage :=
  raw1 <- match raw_tool_calls with
          | PyStr s =>
              match json_loads s with
              | Some v => Ok v
              | None => Raise JSONDecodeError
              end
          | _ => Ok raw_tool_calls
          end ;;
  raw2 <- match raw1 with
          | PyList [PyDict d] => Ok (PyDict d)
          | PyList _ =>
              Raise (ValueError
                       (PyStr (u "Expected a list with a single dictionary element")))
          | PyDict d => Ok (PyList [PyDict d])
          | _ => Ok raw1
          end ;;
  items <- py_iter raw2 ;;
  tool_calls <- mapM (update_id call_id) items ;;
  Ok (mkAI (PyStr []) (PyList tool_calls)).

Definition _post_processing (_dict : pyval) (call_id : str)
  : result BaseMessage :=
  match _dict with
  | PyDict res =>
      raw_message <- remove_tags_and_parse
                       (dict_get_default res (u "generated_text") (PyStr [])) ;;
      if _is_valid_tool_call_format raw_message
      then _tool_calling raw_message call_id
      else
        match raw_message with
        | PyDict raw =>
            Ok (mkAI (dict_get_default raw (u "content") (PyStr []))
                     (dict_get_default raw (u "tool_calls") (PyList [])))
        | PyStr s =>
            let matches := findall_class pattern_class (replace s [10%N] []) in
            Ok (mkAI (PyStr (join_empty matches)) (PyList []))
        | _ => Raise AttributeError
        end
  | _ => Raise AttributeError
  end.

(** [ToolMessage(content=...)]: the required [tool_call_id] is missing. *)
Definition ToolMessage_without_id (content : pyval) : result BaseMessage :=
  Raise (ValueError (PyStr (u "tool_call_id field required"))).

Definition _convert_dict_to_message_one (message : pyval)
  : result (list BaseMessage) :=
  match message with
  | PyStr s =>
      match json_loads s with
      | None => Raise JSONDecodeError
      | Some (PyDict json_message) =>
          let role := dict_get_none json_message (u "role") in
          if eq_str role (u "system") then
            c <- getitem (PyDict json_message) (u "content") ;;
            Ok [SystemMessage c []]
          else if eq_str role (u "assistant") then
            c <- getitem (PyDict json_message) (u "content") ;;
            Ok [mkAI c (dict_get_default json_message (u "tool_calls") (PyList []))]
          else if eq_str role (u "user") then
            c <- getitem (PyDict json_message) (u "content") ;;
            Ok [HumanMessage c []]
          else if eq_str role (u "tool") then
            c <- getitem (PyDict json_message) (u "content") ;;
            m <- ToolMessage_without_id c ;;
            Ok [m]
          else Ok []
      | Some _ => Raise AttributeError
      end
  | _ => Raise TypeError
  end.

Fixpoint _convert_dict_to_message (messages : list pyval)
  : result (list BaseMessage) :=
  match messages with
  | [] => Ok []
  | message :: rest =>
      ms <- _convert_dict_to_message_one message ;;
      tl <- _convert_dict_to_message rest ;;
      Ok (ms ++ tl)
  end.

End Emulator.

Definition blank_to_none (v : pyval) : pyval :=
  match v with
  | PyStr [] => PyNone
  | _ => v
  end.

Definition _convert_message_to_dict (message : BaseMessage) : result dict :=
  message_dict <-
    match message with
    | ChatMessage role content _ =>
        Ok [(u "role", PyStr role); (u "content", content)]
    | HumanMessage content _ =>
        Ok [(u "role", PyStr (u "user")); (u "content", content)]
    | AIMessage content additional_kwargs tool_calls _ =>
        let d0 := [(u "role", PyStr (u "assistant")); (u "content", content)] in
        let d1 :=
          match dict_get additional_kwargs (u "function_call") with
          | Some fc =>
              let d := dict_set d0 (u "function_call") fc in
              dict_set d (u "content")
                (blank_to_none (dict_get_none d (u "content")))
          | None => d0
          end in
        let d2 :=
          match dict_get additional_kwargs (u "tool_calls") with
          | Some tc =>
              let d := dict_set d1 (u "tool_calls") tc in
              dict_set d (u "content")
                (blank_to_none (dict_get_none d (u "content")))
          | None => d1
          end in
        Ok (dict_set d2 (u "tool_calls") tool_calls)
    | SystemMessage content _ =>
        Ok [(u "role", PyStr (u "system")); (u "content", content)]
    | FunctionMessage content _ name =>
        Ok [(u "role", PyStr (u "function")); (u "content", content);
            (u "name", name)]
    | ToolMessage content _ tool_call_id =>
        Ok [(u "role", PyStr (u "tool")); (u "content", content);
            (u "tool_call_id", tool_call_id)]
    | OtherMessage _ _ => Raise TypeError
    end ;;
  match dict_get (msg_additional_kwargs message) (u "name") with
  | Some n => Ok (dict_set message_dict (u "name") n)
  | None => Ok message_dict
  end.

(** ** The chat model class *)

Record ChatWatsonx : Type := {
  model_id : str;
  params : option dict
}.

Definition TOOL_SCHEMA : pyval :=
  PyDict
    [(u "$schema", PyStr (u "http://json-schema.org/draft-07/schema#"));
     (u "type", PyStr (u "object"));
     (u "properties",
      PyDict
        [(u "name",
          PyDict [(u "type", PyStr (u "string"));
                  (u "description", PyStr (u "The name of the tool."))]);
         (u "description",
          PyDict [(u "type", PyStr (u "string"));
                  (u "description",
                   PyStr (u "A description of what the tool does."))]);
         (u "args",
          PyDict
            [(u "type", PyStr (u "object"));
             (u "properties",
              PyDict
                [(u "query",
                  PyDict
                    [(u "type", PyStr (u "object"));
                     (u "properties",
                      PyDict
                        [(u "description",
                          PyDict
                            [(u "type", PyStr (u "string"));
                             (u "description",
                              PyStr (u "The description of the query argument."))])]);
                     (u "required", PyList [PyStr (u "description")])])]);
             (u "required", PyList [PyStr (u "query")])])]);
     (u "required",
      PyList [PyStr (u "name"); PyStr (u "description"); PyStr (u "args")])].

Definition nl : str := [10%N].
Definition sp (n : nat) : str := repeat 32%N n.

(** The sentence appended after every system content that is merged. *)
Definition reminder : str :=
  nl ++ u " When responding to the user your role should always be assistant".

Fixpoint mem_str (s : str) (l : list str) : bool :=
  match l with
  | [] => false
  | x :: r => str_eqb s x || mem_str s r
  end.

Definition is_system (message : pyval) : bool :=
  match message with
  | PyDict d => eq_str (dict_get_none d (u "role")) (u "system")
  | _ => false
  end.

Section Model.

Variable json_loads : str -> option pyval.

(** [repr] of the interpreter, used by f-strings for non-string values. *)
Variable py_repr : pyval -> str.

(** [convert_to_messages] and [ChatPromptValue(...).to_string()] of the
    framework. *)
Variable convert_to_messages : list pyval -> result (list BaseMessage).
Variable to_string : list BaseMessage -> result str.

(** What [f"{v}"] inserts. *)
Definition py_format (v : pyval) : str :=
  match v with
  | PyStr s => s
  | _ => py_repr v
  end.

(** [pre + message["content"] + post] *)
Definition wrap_content (pre : str) (message : pyval) (post : str)
  : result str :=
  c <- getitem message (u "content") ;;
  t <- str_add pre c ;;
  Ok (t ++ post).

(** [message["content"] + post] *)
Definition content_then (message : pyval) (post : str) : result str :=
  c <- getitem message (u "content") ;;
  match c with
  | PyStr s => Ok (s ++ post)
  | _ => Raise TypeError
  end.

Definition granite_turn (message : pyval) : result str :=
  role <- getitem message (u "role") ;;
  if eq_str role (u "system") then
    wrap_content (u "<|system|>" ++ nl) message (nl ++ nl)
  else if eq_str role (u "assistant") then
    wrap_content (u "<|assistant|>" ++ nl) message (nl ++ nl)
  else if eq_str role (u "function") then
    wrap_content (u "<|function|>" ++ nl) message (nl ++ nl)
  else if eq_str role (u "tool") then
    wrap_content (u "<|tool|>" ++ nl) message (nl ++ nl)
  else
    wrap_content (u "<|user|>:" ++ nl) message (nl ++ nl).

Definition llama2_turn (message : pyval) : result str :=
  role <- getitem message (u "role") ;;
  if eq_str role (u "system") then
    wrap_content (u "[INST] <<SYS>>" ++ nl) message (u "<</SYS>>" ++ nl ++ nl)
  else if eq_str role (u "assistant") then
    content_then message (nl ++ u "[INST]" ++ nl ++ nl)
  else
    content_then message (nl ++ u "[/INST]" ++ nl).

Definition header_turn (role : str) (c : pyval) : str :=
  u "<|begin_of_text|><|start_header_id|>" ++ role ++ u "<|end_header_id|>"
  ++ nl ++ u " " ++ py_format c ++ u " <|eot_id|>" ++ nl.

(** The assistant branch of this dialect builds its text and drops it. *)
Definition llama31_turn (message : pyval) : result str :=
  role <- getitem message (u "role") ;;
  c <- getitem message (u "content") ;;
  if eq_str role (u "system") then Ok (header_turn (u "system") c)
  else if eq_str role (u "assistant") then Ok []
  else if eq_str role (u "tool_call") then Ok (header_turn (u "tool_call") c)
  else Ok (header_turn (u "user") c).

(** [for message in messages: prompt += turn(message)] *)
Fixpoint render_turns (turn : pyval -> result str) (prompt : str)
         (messages : list pyval) : result str :=
  match messages with
  | [] => Ok prompt
  | message :: rest =>
      t <- turn message ;;
      render_turns turn (prompt ++ t) rest
  end.

Definition granite_ids : list str :=
  [u "ibm/granite-13b-chat-v1"; u "ibm/granite-13b-chat-v2"].
Definition llama2_ids : list str :=
  [u "meta-llama/llama-2-13b-chat"; u "meta-llama/llama-2-70b-chat"].
Definition llama31_ids : list str :=
  [u "meta-llama/llama-3-1-70b-instruct"].

Definition assistant_marker : str := u "<|assistant|>" ++ nl.

Definition _create_chat_prompt (self : ChatWatsonx) (messages : list pyval)
  : result str :=
  if mem_str (model_id self) granite_ids then
    prompt <- render_turns granite_turn [] messages ;;
    Ok (prompt ++ assistant_marker)
  else if mem_str (model_id self) llama2_ids then
    render_turns llama2_turn [] messages
  else if mem_str (model_id self) llama31_ids then
    prompt <- render_turns llama31_turn [] messages ;;
    Ok (prompt ++ assistant_marker)
  else
    ms <- convert_to_messages messages ;;
    to_string (ms ++ [mkAI (PyStr []) (PyList [])]).

Definition _create_message_dicts (self : ChatWatsonx)
           (messages : list BaseMessage) (stop : option pyval) (kwargs : dict)
  : result (list dict * dict) :=
  let params0 :=
    match params self with
    | Some p => if truthy (PyDict p) then p else []
    | None => []
    end in
  extra <- match dict_get_default kwargs (u "params") (PyDict []) with
           | PyDict d => Ok d
           | _ => Raise TypeError
           end ;;
  let params1 := dict_merge params0 extra in
  params2 <-
    match stop with
    | Some stop_value =>
        if truthy (PyDict params1) && dict_has params1 (u "stop_sequences")
        then Raise (ValueError
                      (PyStr (u "`stop_sequences` found in both the input and default params.")))
        else Ok (dict_merge params1 [(u "stop_sequences", stop_value)])
    | None => Ok params1
    end ;;
  message_dicts <- mapM _convert_message_to_dict messages ;;
  Ok (message_dicts, params2).

Definition tool_description (tool : pyval) : result pyval :=
  match tool with
  | PyDict t =>
      let function_call := dict_get_none t (u "function") in
      parameters <- getitem function_call (u "parameters") ;;
      args <- getitem parameters (u "properties") ;;
      name <- getitem function_call (u "name") ;;
      description <- getitem function_call (u "description") ;;
      Ok (PyDict [(u "name", name); (u "description", description);
                  (u "args", args)])
  | _ => Raise AttributeError
  end.

(** The f-string of [_generate], before whitespace is collapsed. *)
Definition tool_prompt (tool_descriptions : list pyval) : str :=
  u "Given the following functions, please respond with a JSON for a function call with its proper arguments that best answers the given prompt."
  ++ nl ++ nl ++ nl ++ sp 12
  ++ py_repr (PyList tool_descriptions)
  ++ nl ++ nl ++ nl ++ sp 12
  ++ u "Tools should use the following format:" ++ nl ++ nl ++ sp 12
  ++ py_repr TOOL_SCHEMA
  ++ nl ++ nl ++ sp 12 ++ u "Reminder:" ++ nl ++ sp 16
  ++ u "-Required parameters MUST be specified" ++ sp 16
  ++ u "-Put the entire function call reply on one line" ++ sp 16
  ++ u "-ONLY use the function arguments provided in the tool description."
  ++ sp 16
  ++ u "-If you do not need to use a tool or you have the answer then respond directly to the user."
  ++ nl ++ sp 12.

(** The content of the synthetic system message. *)
Definition tool_instruction (tool_descriptions : list pyval) : str :=
  strip (re_sub_ws (tool_prompt tool_descriptions)).

(** The loop that merges the contents of the system-role dicts. *)
Fixpoint merge_system (system_message : str) (chat_messages : list pyval)
  : result str :=
  match chat_messages with
  | [] => Ok system_message
  | message :: rest =>
      match message with
      | PyDict d =>
          if eq_str (dict_get_none d (u "role")) (u "system") then
            s <- str_add system_message (dict_get_none d (u "content")) ;;
            merge_system (s ++ reminder) rest
          else merge_system system_message rest
      | _ => Raise AttributeError
      end
  end.

Definition system_dict (content : str) : pyval :=
  PyDict [(u "role", PyStr (u "system")); (u "content", PyStr content)].

Definition del_if_present (d : dict) (k : str) : dict :=
  if dict_has d k then dict_del d k else d.

(** [_generate] up to the call of the collaborator: the prompt and keyword
    arguments handed to [watsonx_model.generate], or the exception raised
    before any call is made.  The call is
    [generate(prompt=..., **(kwargs | {"params": params}))]: a [prompt] among
    the keyword arguments is a duplicate keyword, a [TypeError] raised before
    the collaborator is entered. *)
Definition _generate_request (self : ChatWatsonx)
           (messages : list BaseMessage) (stop : option pyval) (kwargs : dict)
  : result (str * dict) :=
  mp <- _create_message_dicts self messages stop kwargs ;;
  let message_dicts := fst mp in
  let params_ := snd mp in
  let chat_messages := map PyDict message_dicts in
  let tools := dict_get_none kwargs (u "tools") in
  np <-
    (if truthy tools then
       items <- py_iter tools ;;
       tool_descriptions <- mapM tool_description items ;;
       let chat_messages1 :=
         chat_messages ++ [system_dict (tool_instruction tool_descriptions)] in
       system_message <- merge_system [] chat_messages1 ;;
       let new_prompt :=
         system_dict system_message
         :: filter (fun m => negb (is_system m)) chat_messages1 in
       Ok (new_prompt,
           del_if_present (del_if_present kwargs (u "tools")) (u "tool_choice"))
     else Ok ([], kwargs)) ;;
  let prompt := json_dumps (PyList (fst np)) in
  let keywords := dict_merge (snd np) [(u "params", PyDict params_)] in
  if dict_has keywords (u "prompt") then Raise TypeError
  else Ok (prompt, keywords).

(** [uuid.uuid4().hex] for the 128-bit value drawn. *)
Definition uuid_hex (uuid4 : N) : str := hex_fixed 32 uuid4.

(** One iteration of the loop over [response["results"]]. *)
Definition result_step (call_id : str) (res : pyval) (sums : Z * Z)
  : result (ChatGeneration * (Z * Z)) :=
  message0 <- _post_processing json_loads res call_id ;;
  match res with
  | PyDict r =>
      let generation_info := [(u "finish_reason", dict_get_none r (u "stop_reason"))] in
      g <- match dict_get r (u "generated_token_count") with
           | Some v => int_add (fst sums) v
           | None => Ok (fst sums)
           end ;;
      i <- match dict_get r (u "input_token_count") with
           | Some v => int_add (snd sums) v
           | None => Ok (snd sums)
           end ;;
      let total_token := (g + i)%Z in
      let message1 :=
        if truthy (PyInt total_token) && isAIMessage message0
        then set_usage message0
               {| input_tokens := i; output_tokens := g;
                  total_tokens := total_token |}
        else message0 in
      Ok ({| message := message1; generation_info := generation_info |},
          (g, i))
  | _ => Raise AttributeError
  end.

Fixpoint results_loop (call_id : str) (results : list pyval) (sums : Z * Z)
  : result (list ChatGeneration * (Z * Z)) :=
  match results with
  | [] => Ok ([], sums)
  | res :: rest =>
      gs <- result_step call_id res sums ;;
      tl <- results_loop call_id rest (snd gs) ;;
      Ok (fst gs :: fst tl, snd tl)
  end.

Definition _create_chat_result (self : ChatWatsonx) (uuid4 : N)
           (response : pyval) : result ChatResult :=
  let call_id := uuid_hex uuid4 in
  match response with
  | PyDict resp =>
      if truthy (dict_get_none resp (u "error"))
      then Raise (ValueError (dict_get_none resp (u "error")))
      else
        results <- getitem response (u "results") ;;
        items <- py_iter results ;;
        out <- results_loop call_id items (0%Z, 0%Z) ;;
        let token_usage :=
          PyDict [(u "generated_token_count", PyInt (fst (snd out)));
                  (u "input_token_count", PyInt (snd (snd out)))] in
        Ok {| generations := fst out;
              llm_output :=
                [(u "token_usage", token_usage);
                 (u "model_name", PyStr (model_id self));
                 (u "system_fingerprint",
                  dict_get_default resp (u "system_fingerprint") (PyStr []))] |}
  | _ => Raise AttributeError
  end.

(** [_generate] with the collaborator's [generate] as a function. *)
Definition _generate (self : ChatWatsonx)
           (generate : str -> dict -> result pyval) (uuid4 : N)
           (messages : list BaseMessage) (stop : option pyval) (kwargs : dict)
  : result ChatResult :=
  req <- _generate_request self messages stop kwargs ;;
  response <- generate (fst req) (snd req) ;;
  _create_chat_result self uuid4 response.

End Model.

(** ** A JSON reader and a [repr] for closed examples

    [json_loads] follows [json.loads] on the fragment without fractional or
    exponent number syntax, without [NaN]/[Infinity] and without surrogate
    pairs in [\u] escapes; [py_repr] follows [repr] on values whose strings
    are printable.  The general theorems below hold for every reader. *)

Module Json.

Definition is_ws (c : char) : bool :=
  ((c =? 32) || (c =? 9) || (c =? 10) || (c =? 13))%N.

Fixpoint skip_ws (s : str) : str :=
  match s with
  | c :: r => if is_ws c then skip_ws r else s
  | [] => []
  end.

Definition is_digit (c : char) : bool := ((48 <=? c) && (c <=? 57))%N.

Fixpoint digits (acc : Z) (s : str) : Z * str :=
  match s with
  | c :: r =>
      if is_digit c then digits (10 * acc + Z.of_N (c - 48)) r else (acc, s)
  | [] => (acc, [])
  end.

Definition starts_number_tail (s : str) : bool :=
  match s with
  | c :: _ => ((c =? 46) || (c =? 101) || (c =? 69))%N
  | [] => false
  end.

(** An integer literal without its sign. *)
Definition natural (s : str) : option (Z * str) :=
  match s with
  | c :: r =>
      if (c =? 48)%N then
        (if starts_number_tail r then None else Some (0%Z, r))
      else if is_digit c then
        let (n, r') := digits 0 s in
        if starts_number_tail r' then None else Some (n, r')
      else None
  | [] => None
  end.

Definition hexval (c : char) : option N :=
  (if is_digit c then Some (c - 48)
   else if (97 <=? c) && (c <=? 102) then Some (c - 87)
   else if (65 <=? c) && (c <=? 70) then Some (c - 55)
   else None)%N.

Definition hex4 (s : str) : option (N * str) :=
  match s with
  | a :: b :: c :: d :: r =>
      match hexval a, hexval b, hexval c, hexval d with
      | Some x, Some y, Some z, Some w =>
          Some (((x * 16 + y) * 16 + z) * 16 + w, r)%N
      | _, _, _, _ => None
      end
  | _ => None
  end.

(** The body of a string literal, after its opening quote. *)
Fixpoint string_body (fuel : nat) (acc : str) (s : str) : option (str * str) :=
  match fuel with
  | O => None
  | S f =>
      match s with
      | [] => None
      | c :: r =>
          if (c =? 34)%N then Some (rev acc, r)
          else if (c =? 92)%N then
            match r with
            | e :: r' =>
                if (e =? 34)%N then string_body f (34%N :: acc) r'
                else if (e =? 92)%N then string_body f (92%N :: acc) r'
                else if (e =? 47)%N then string_body f (47%N :: acc) r'
                else if (e =? 98)%N then string_body f (8%N :: acc) r'
                else if (e =? 102)%N then string_body f (12%N :: acc) r'
                else if (e =? 110)%N then string_body f (10%N :: acc) r'
                else if (e =? 114)%N then string_body f (13%N :: acc) r'
                else if (e =? 116)%N then string_body f (9%N :: acc) r'
                else if (e =? 117)%N then
                  match hex4 r' with
                  | Some (n, r'') =>
                      if ((55296 <=? n) && (n <=? 57343))%N then None
                      else string_body f (n :: acc) r''
                  | None => None
                  end
                else None
            | [] => None
            end
          else if (c <? 32)%N then None
          else string_body f (c :: acc) r
      end
  end.

Definition literal (word : str) (v : pyval) (s : str) : option (pyval * str) :=
  if startswith word s then Some (v, skipn (List.length word) s) else None.

Fixpoint value (fuel : nat) (s : str) : option (pyval * str) :=
  match fuel with
  | O => None
  | S f =>
      match skip_ws s with
      | [] => None
      | c :: r =>
          if (c =? 123)%N then
            match skip_ws r with
            | c' :: r' =>
                if (c' =? 125)%N then Some (PyDict [], r')
                else members f [] (c' :: r')
            | [] => None
            end
          else if (c =? 91)%N then
            match skip_ws r with
            | c' :: r' =>
                if (c' =? 93)%N then Some (PyList [], r')
                else elements f [] (c' :: r')
            | [] => None
            end
          else if (c =? 34)%N then
            match string_body (S (List.length r)) [] r with
            | Some (t, r') => Some (PyStr t, r')
            | None => None
            end
          else if (c =? 45)%N then
            match natural r with
            | Some (n, r') => Some (PyInt (- n), r')
            | None => None
            end
          else if is_digit c then
            match natural (c :: r) with
            | Some (n, r') => Some (PyInt n, r')
            | None => None
            end
          else if (c =? 116)%N then literal (u "true") (PyBool true) (c :: r)
          else if (c =? 102)%N then literal (u "false") (PyBool false) (c :: r)
          else if (c =? 110)%N then literal (u "null") PyNone (c :: r)
          else None
      end
  end

with elements (fuel : nat) (acc : list pyval) (s : str)
  : option (pyval * str) :=
  match fuel with
  | O => None
  | S f =>
      match value f s with
      | Some (v, r) =>
          match skip_ws r with
          | c :: r' =>
              if (c =? 44)%N then elements f (v :: acc) r'
              else if (c =? 93)%N then Some (PyList (rev (v :: acc)), r')
              else None
          | [] => None
          end
      | None => None
      end
  end

with members (fuel : nat) (acc : dict) (s : str) : option (pyval * str) :=
  match fuel with
  | O => None
  | S f =>
      match skip_ws s with
      | q :: r0 =>
          if (q =? 34)%N then
            match string_body (S (List.length r0)) [] r0 with
            | Some (k, r1) =>
                match skip_ws r1 with
                | c :: r2 =>
                    if (c =? 58)%N then
                      match value f r2 with
                      | Some (v, r3) =>
                          match skip_ws r3 with
                          | c' :: r4 =>
                              if (c' =? 44)%N
                              then members f (dict_set acc k v) r4
                              else if (c' =? 125)%N
                              then Some (PyDict (dict_set acc k v), r4)
                              else None
                          | [] => None
                          end
                      | None => None
                      end
                    else None
                | [] => None
                end
            | None => None
            end
          else None
      | [] => None
      end
  end.

Definition json_loads (s : str) : option pyval :=
  match value (2 * List.length s + 2) s with
  | Some (v, r) =>
      match skip_ws r with
      | [] => Some v
      | _ :: _ => None
      end
  | None => None
  end.

Definition has_char (c : char) (s : str) : bool := existsb (N.eqb c) s.

Definition repr_char (quote : char) (c : char) : str :=
  (if (c =? quote) || (c =? 92) then [92; c]
   else if c =? 10 then u "\n"
   else if c =? 13 then u "\r"
   else if c =? 9 then u "\t"
   else if (c <? 32) || (c =? 127) then u "\x" ++ hex_fixed 2 c
   else [c])%N.

Definition repr_str (s : str) : str :=
  let quote := (if has_char 39 s && negb (has_char 34 s) then 34 else 39)%N in
  [quote] ++ flat_map (repr_char quote) s ++ [quote].

Fixpoint py_repr (v : pyval) : str :=
  match v with
  | PyNone => u "None"
  | PyBool true => u "True"
  | PyBool false => u "False"
  | PyInt z => decimal z
  | PyStr s => repr_str s
  | PyList l => u "[" ++ join (u ", ") (map py_repr l) ++ u "]"
  | PyDict d =>
      u "{"
      ++ join (u ", ")
           (map (fun kv =>
                   match kv with
                   | (k, x) => repr_str k ++ u ": " ++ py_repr x
                   end) d)
      ++ u "}"
  end.

End Json.


(** ** Concrete inputs used by the examples *)

Definition tool_call_text : str :=
  uq "{'args': {'query': 'q'}, 'name': 'search'}".

Definition wrapped_tool_call_text : str :=
  uq "[{'args': {'query': 'q'}, 'name': 'search'}]".

Definition tool_call_dict : dict :=
  [(u "args", PyDict [(u "query", PyStr (u "q"))]);
   (u "name", PyStr (u "search"))].

Definition text_result (text : str) : pyval :=
  PyDict [(u "generated_text", PyStr text)].


Definition llama31 : ChatWatsonx :=
  {| model_id := u "meta-llama/llama-3-1-70b-instruct"; params := None |}.

Definition llama2 : ChatWatsonx :=
  {| model_id := u "meta-llama/llama-2-13b-chat"; params := None |}.

Definition granite : ChatWatsonx :=
  {| model_id := u "ibm/granite-13b-chat-v2"; params := None |}.

(** ** Vocabulary of the statements and inputs of the examples *)

(** The identifiers of the tool calls a message carries. *)
Definition tool_call_id_of (tc : pyval) : pyval :=
  match tc with
  | PyDict d => dict_get_none d (u "id")
  | _ => PyNone
  end.

Definition tool_call_ids (m : BaseMessage) : list pyval :=
  match msg_tool_calls m with
  | PyList l => map tool_call_id_of l
  | _ => []
  end.

Definition result_tool_call_ids (r : ChatResult) : list pyval :=
  flat_map (fun g => tool_call_ids (message g)) (generations r).

(** The entries of [response["results"]] in iteration order. *)
Definition results_of (resp : dict) : list pyval :=
  match dict_get resp (u "results") with
  | Some v => match py_iter v with Ok l => l | Raise _ => [] end
  | None => []
  end.

(** The text of an entry passes the tool-call shape check. *)
Definition tool_shaped (json_loads : str -> option pyval) (res : pyval) : bool :=
  match res with
  | PyDict r =>
      match remove_tags_and_parse json_loads
              (dict_get_default r (u "generated_text") (PyStr [])) with
      | Ok raw => _is_valid_tool_call_format json_loads raw
      | Raise _ => false
      end
  | _ => false
  end.

(** A token-count field of an entry, [0] when it is absent. *)
Definition count_of (key : str) (res : pyval) : Z :=
  match res with
  | PyDict r =>
      match dict_get r key with
      | Some (PyInt z) => z
      | Some (PyBool b) => if b then 1 else 0
      | _ => 0
      end
  | _ => 0
  end.

Fixpoint running (key : str) (results : list pyval) : Z :=
  match results with
  | [] => 0
  | res :: rest => (count_of key res + running key rest)%Z
  end.

Definition generated_key : str := u "generated_token_count".
Definition input_key : str := u "input_token_count".

Definition usage_for (g i : Z) : option UsageMetadata :=
  if (g + i =? 0)%Z then None
  else Some {| input_tokens := i; output_tokens := g;
               total_tokens := (g + i)%Z |}.

Definition falsy_error_response (v : pyval) : pyval :=
  PyDict [(u "error", v); (u "results", PyList [text_result (u "ok")])].

Definition ok_generation : ChatGeneration :=
  {| message := mkAI (PyStr (u "ok")) (PyList []);
     generation_info := [(u "finish_reason", PyNone)] |}.

Definition error_response : dict :=
  [(u "error", PyStr (u "quota exceeded"));
   (u "results", PyList [text_result tool_call_text])].

Definition two_tool_calls_response : dict :=
  [(u "results",
    PyList [text_result tool_call_text; text_result tool_call_text])].


Definition tool_call_generation (call_id : str) : ChatGeneration :=
  {| message :=
       mkAI (PyStr [])
         (PyList [PyDict (tool_call_dict ++ [(u "id", PyStr call_id)])]);
     generation_info := [(u "finish_reason", PyNone)] |}.

Definition two_tool_calls_result (call_id : str) : ChatResult :=
  {| generations :=
       [tool_call_generation call_id; tool_call_generation call_id];
     llm_output :=
       [(u "token_usage",
         PyDict [(u "generated_token_count", PyInt 0);
                 (u "input_token_count", PyInt 0)]);
        (u "model_name", PyStr (model_id llama31));
        (u "system_fingerprint", PyStr [])] |}.



Definition fence : str := u "```".

Definition fenced_tool_call_text : str := fence ++ tool_call_text ++ fence.

Definition fenced_wrapped_text : str := fence ++ wrapped_tool_call_text ++ fence.

Definition chatty_text : str :=
  fence ++ u "Hello," ++ [128512%N] ++ nl ++ u "world! *ok*" ++ fence.

(** The framework's generic conversion and stringification, for role/content
    dictionaries; used to instantiate the fallback in closed examples. *)
Module Framework.

Definition convert_one (m : pyval) : result BaseMessage :=
  match m with
  | PyDict d =>
      match dict_get d (u "role"), dict_get d (u "content") with
      | Some (PyStr r), Some c =>
          if mem_str r [u "user"; u "human"] then Ok (HumanMessage c [])
          else if mem_str r [u "assistant"; u "ai"]
          then Ok (mkAI c (PyList []))
          else if str_eqb r (u "system") then Ok (SystemMessage c [])
          else Raise (ValueError (PyStr (u "Unexpected message type")))
      | _, _ => Raise (ValueError (PyStr (u "Message dict must contain 'role' and 'content' keys")))
      end
  | _ => Raise TypeError
  end.

Definition convert_to_messages (ms : list pyval) : result (list BaseMessage) :=
  mapM convert_one ms.

Definition buffer_line (m : BaseMessage) : result str :=
  let text :=
    match msg_content m with
    | PyStr s => s
    | v => Json.py_repr v
    end in
  match m with
  | HumanMessage _ _ => Ok (u "Human: " ++ text)
  | AIMessage _ _ _ _ => Ok (u "AI: " ++ text)
  | SystemMessage _ _ => Ok (u "System: " ++ text)
  | FunctionMessage _ _ _ => Ok (u "Function: " ++ text)
  | ToolMessage _ _ _ => Ok (u "Tool: " ++ text)
  | ChatMessage r _ _ => Ok (r ++ u ": " ++ text)
  | OtherMessage _ _ => Raise (ValueError (PyStr (u "Got unsupported message type")))
  end.

Definition to_string (ms : list BaseMessage) : result str :=
  ls <- mapM buffer_line ms ;; Ok (join nl ls).

End Framework.

(** A role/content dictionary with textual content. *)
Definition renderable (m : pyval) : Prop :=
  exists d r c,
    m = PyDict d
    /\ dict_get d (u "role") = Some r
    /\ dict_get d (u "content") = Some (PyStr c).

Definition user_hi : pyval :=
  PyDict [(u "role", PyStr (u "user")); (u "content", PyStr (u "hi"))].

Definition assistant_hello : pyval :=
  PyDict [(u "role", PyStr (u "assistant")); (u "content", PyStr (u "hello"))].

(** The textual contents of the system-role dictionaries, in order. *)
Definition system_content_of (m : pyval) : list str :=
  match m with
  | PyDict d =>
      if eq_str (dict_get_none d (u "role")) (u "system")
      then match dict_get_none d (u "content") with
           | PyStr s => [s]
           | _ => []
           end
      else []
  | _ => []
  end.

Definition system_contents (ms : list pyval) : list str :=
  flat_map system_content_of ms.

(** Every content followed by the reminder sentence. *)
Definition merged_system (contents : list str) : str :=
  List.concat (map (fun c => c ++ reminder) contents).

(** A system-role dictionary has textual content. *)
Definition system_text (d : dict) : Prop :=
  eq_str (dict_get_none d (u "role")) (u "system") = true ->
  exists s, dict_get_none d (u "content") = PyStr s.

(** The list the tools branch serialises: the merged system message, then
    the dictionaries that are not of the system role. *)
Definition tools_new_prompt (py_repr : pyval -> str) (mds : list dict)
           (tds : list pyval) : list pyval :=
  let chat := map PyDict mds in
  system_dict
    (merged_system (system_contents chat ++ [tool_instruction py_repr tds]))
  :: filter (fun m => negb (is_system m)) chat.

Definition search_tool : pyval :=
  PyDict
    [(u "type", PyStr (u "function"));
     (u "function",
      PyDict
        [(u "name", PyStr (u "search"));
         (u "description", PyStr (u "Search the web"));
         (u "parameters",
          PyDict
            [(u "type", PyStr (u "object"));
             (u "properties",
              PyDict [(u "query", PyDict [(u "type", PyStr (u "string"))])])])])].

Definition search_description : pyval :=
  PyDict
    [(u "name", PyStr (u "search"));
     (u "description", PyStr (u "Search the web"));
     (u "args", PyDict [(u "query", PyDict [(u "type", PyStr (u "string"))])])].

Definition be_brief : str := u "Be brief.".

Definition conversation : list BaseMessage :=
  [SystemMessage (PyStr be_brief) []; HumanMessage (PyStr (u "hi")) []].

Definition with_tools : dict :=
  [(u "tools", PyList [search_tool]); (u "tool_choice", PyStr (u "auto"))].

Definition stop_x : pyval := PyList [PyStr (u "x")].

Definition with_stop_sequences : dict :=
  [(u "params", PyDict [(u "stop_sequences", PyList [PyStr (u "y")])])].

Definition user_hi_dict : dict :=
  [(u "role", PyStr (u "user")); (u "content", PyStr (u "hi"))].

Definition conversation_dicts : list dict :=
  [[(u "role", PyStr (u "system")); (u "content", PyStr be_brief)];
   user_hi_dict].

Definition search_instruction : str :=
  tool_instruction Json.py_repr [search_description].

(** ** The remaining helpers and methods of the module *)

(** A content block of type [tool_use]. *)
Definition is_tool_use (block : pyval) : bool :=
  match block with
  | PyDict b =>
      match dict_get b (u "type") with
      | Some v => eq_str v (u "tool_use")
      | None => false
      end
  | _ => false
  end.

Definition _format_message_content (content : pyval) : pyval :=
  match content with
  | PyList (x :: l) =>
      PyList (filter (fun block => negb (is_tool_use block)) (x :: l))
  | _ => content
  end.

(** [_lc_tool_call_to_openai_tool_call]; [tool_call] is a [TypedDict]. *)
Definition _lc_tool_call_to_openai_tool_call (tool_call : pyval)
  : result pyval :=
  id <- getitem tool_call (u "id") ;;
  name <- getitem tool_call (u "name") ;;
  args <- getitem tool_call (u "args") ;;
  Ok (PyDict [(u "type", PyStr (u "function"));
              (u "id", id);
              (u "function",
               PyDict [(u "name", name);
                       (u "arguments", PyStr (json_dumps args))])]).

Definition _lc_invalid_tool_call_to_openai_tool_call (invalid_tool_call : pyval)
  : result pyval :=
  id <- getitem invalid_tool_call (u "id") ;;
  name <- getitem invalid_tool_call (u "name") ;;
  args <- getitem invalid_tool_call (u "args") ;;
  Ok (PyDict [(u "type", PyStr (u "function"));
              (u "id", id);
              (u "function",
               PyDict [(u "name", name); (u "arguments", args)])]).

(** *** Streaming deltas *)

(** The chunk classes a caller can pass as [default_class]. *)
Inductive ChunkClass : Type :=
| HumanChunkClass
| AIChunkClass
| SystemChunkClass
| FunctionChunkClass
| ToolChunkClass
| ChatChunkClass
| BaseChunkClass.

Inductive BaseMessageChunk : Type :=
| HumanMessageChunk (content : pyval) (id : str)
| AIMessageChunk (content : pyval) (additional_kwargs : dict) (id : str)
                 (tool_call_chunks : list pyval)
| SystemMessageChunk (content : pyval) (id : str)
| FunctionMessageChunk (content : pyval) (name : pyval) (id : str)
| ToolMessageChunk (content : pyval) (tool_call_id : pyval) (id : str)
| ChatMessageChunk (content : pyval) (role : pyval) (id : str)
| DefaultChunk (cls : ChunkClass) (content : pyval) (id : str).

Definition chunk_content (c : BaseMessageChunk) : pyval :=
  match c with
  | HumanMessageChunk x _ | AIMessageChunk x _ _ _ | SystemMessageChunk x _
  | FunctionMessageChunk x _ _ | ToolMessageChunk x _ _
  | ChatMessageChunk x _ _ | DefaultChunk _ x _ => x
  end.

Definition chunk_id (c : BaseMessageChunk) : str :=
  match c with
  | HumanMessageChunk _ i | AIMessageChunk _ _ i _ | SystemMessageChunk _ i
  | FunctionMessageChunk _ _ i | ToolMessageChunk _ _ i
  | ChatMessageChunk _ _ i | DefaultChunk _ _ i => i
  end.

Definition is_class (a b : ChunkClass) : bool :=
  match a, b with
  | HumanChunkClass, HumanChunkClass | AIChunkClass, AIChunkClass
  | SystemChunkClass, SystemChunkClass
  | FunctionChunkClass, FunctionChunkClass
  | ToolChunkClass, ToolChunkClass | ChatChunkClass, ChatChunkClass
  | BaseChunkClass, BaseChunkClass => true
  | _, _ => false
  end.

(** [try: ... except KeyError: fallback] *)
Definition except_KeyError {A} (c : result A) (fallback : A) : result A :=
  match c with
  | Raise (KeyError _) => Ok fallback
  | _ => c
  end.

(** One element of the comprehension that builds [tool_call_chunks]. *)
Definition tool_call_chunk (rtc : pyval) : result pyval :=
  f <- getitem rtc (u "function") ;;
  match f with
  | PyDict fd =>
      f2 <- getitem rtc (u "function") ;;
      match f2, rtc with
      | PyDict fd2, PyDict r =>
          index <- getitem rtc (u "index") ;;
          Ok (PyDict [(u "name", dict_get_none fd (u "name"));
                      (u "args", dict_get_none fd2 (u "arguments"));
                      (u "id", dict_get_none r (u "id"));
                      (u "index", index)])
      | _, _ => Raise AttributeError
      end
  | _ => Raise AttributeError
  end.

Section Delta.

(** The builtin [dict(x)]. *)
Variable py_dict : pyval -> result dict.

(** The validators of the framework's [AIMessageChunk]: from the additional
    keyword arguments and the [tool_call_chunks] it is passed, the chunks the
    message ends up with (it derives them from
    [additional_kwargs["tool_calls"]] when the list passed is empty). *)
Variable init_tool_call_chunks : dict -> list pyval -> list pyval.

Definition _convert_delta_to_message_chunk (_dict : dict)
           (default_class : ChunkClass) : result BaseMessageChunk :=
  let id_ := u "sample_id" in
  let role := dict_get_none _dict (u "role") in
  let content :=
    if truthy (dict_get_none _dict (u "generated_text"))
    then dict_get_none _dict (u "generated_text") else PyStr [] in
  additional_kwargs0 <-
    (if truthy (dict_get_none _dict (u "function_call")) then
       function_call <- py_dict (dict_get_none _dict (u "function_call")) ;;
       let function_call1 :=
         match dict_get function_call (u "name") with
         | Some PyNone => dict_set function_call (u "name") (PyStr [])
         | _ => function_call
         end in
       Ok [(u "function_call", PyDict function_call1)]
     else Ok []) ;;
  kc <-
    (let raw_tool_calls := dict_get_none _dict (u "tool_calls") in
     if truthy raw_tool_calls then
       let additional_kwargs1 :=
         dict_set additional_kwargs0 (u "tool_calls") raw_tool_calls in
       chunks <- except_KeyError
                   (items <- py_iter raw_tool_calls ;;
                    mapM tool_call_chunk items) [] ;;
       Ok (additional_kwargs1, chunks)
     else Ok (additional_kwargs0, [])) ;;
  let additional_kwargs := fst kc in
  let tool_call_chunks := snd kc in
  if eq_str role (u "user") || is_class default_class HumanChunkClass then
    Ok (HumanMessageChunk content id_)
  else if eq_str role (u "assistant") || is_class default_class AIChunkClass then
    Ok (AIMessageChunk content additional_kwargs id_
          (init_tool_call_chunks additional_kwargs tool_call_chunks))
  else if eq_str role (u "system") || is_class default_class SystemChunkClass
  then Ok (SystemMessageChunk content id_)
  else if eq_str role (u "function")
          || is_class default_class FunctionChunkClass then
    name <- getitem (PyDict _dict) (u "name") ;;
    Ok (FunctionMessageChunk content name id_)
  else if eq_str role (u "tool") || is_class default_class ToolChunkClass then
    tool_call_id <- getitem (PyDict _dict) (u "tool_call_id") ;;
    Ok (ToolMessageChunk content tool_call_id id_)
  else if truthy role || is_class default_class ChatChunkClass then
    Ok (ChatMessageChunk content role id_)
  else Ok (DefaultChunk default_class content id_).

End Delta.

(** A stand-in for the framework's validators in closed examples: the chunks
    passed are kept; when none are passed, one chunk per raw tool call under
    [tool_calls], with absent entries read as [None]. *)
Definition raw_chunk (rtc : pyval) : pyval :=
  match rtc with
  | PyDict r =>
      let f := match dict_get r (u "function") with
               | Some (PyDict fd) => fd
               | _ => []
               end in
      PyDict [(u "name", dict_get_none f (u "name"));
              (u "args", dict_get_none f (u "arguments"));
              (u "id", dict_get_none r (u "id"));
              (u "index", dict_get_none r (u "index"))]
  | _ => PyNone
  end.

Definition rebuilt_tool_call_chunks (additional_kwargs : dict)
           (tool_call_chunks : list pyval) : list pyval :=
  match tool_call_chunks with
  | [] =>
      match dict_get additional_kwargs (u "tool_calls") with
      | Some (PyList raw) => map raw_chunk raw
      | _ => []
      end
  | _ :: _ => tool_call_chunks
  end.

(** *** Payload *)

(** One iteration of the loop of [_get_payload]; the [ValueError] carries
    the offending message. *)
Definition payload_message (msg : pyval) : result pyval :=
  match msg with
  | PyStr s =>
      Ok (PyDict [(u "role", PyStr (u "user")); (u "content", msg)])
  | PyDict d =>
      match dict_get_default d (u "content") PyNone with
      | PyNone =>
          if negb (eq_str (dict_get_none d (u "role")) (u "assistant"))
          then Raise (ValueError msg)
          else Ok msg
      | _ => Ok msg
      end
  | _ => Raise (ValueError msg)
  end.

Definition _get_payload (inputs : list pyval) (params_ : dict) : result dict :=
  messages <- mapM payload_message inputs ;;
  Ok (dict_merge [(u "messages", PyList messages)] params_).

(** *** Binding tools, functions and schemas

    A bound runnable is represented by the keyword arguments it binds. *)

Definition bind_tools_supported_models : list str :=
  [u "meta-llama/llama-3-1-70b-instruct"].

(** [isinstance(v, str) and v not in ("auto", "none")] *)
Definition names_function (v : pyval) : bool :=
  match v with
  | PyStr s => negb (mem_str s [u "auto"; u "none"])
  | _ => false
  end.

Definition is_dict (v : pyval) : bool :=
  match v with PyDict _ => true | _ => false end.

(** A schema handed to [with_structured_output]. *)
Inductive Schema : Type :=
| MappingSchema (d : pyval)
| PydanticSchema (cls : pyval).

Definition schema_value (s : Schema) : pyval :=
  match s with MappingSchema d => d | PydanticSchema c => c end.

Definition _is_pydantic_class (obj : option Schema) : bool :=
  match obj with
  | Some (PydanticSchema _) => true
  | _ => false
  end.

Inductive OutputParser : Type :=
| PydanticToolsParser (tools : list pyval) (first_tool_only : bool)
| JsonOutputKeyToolsParser (key_name : pyval) (first_tool_only : bool)
| PydanticOutputParser (pydantic_object : option Schema)
| JsonOutputParser.

(** [llm | output_parser], or with [include_raw] the map that keeps the raw
    message and falls back to [parsed = None] with the exception under
    [parsing_error]. *)
Record StructuredOutput : Type := {
  llm_kwargs : dict;
  output_parser : OutputParser;
  with_raw : bool
}.

Section Binding.

(** [convert_to_openai_tool] and [convert_to_openai_function] of the
    framework, and [==] of the interpreter. *)
Variable convert_to_openai_tool : pyval -> result pyval.
Variable convert_to_openai_function : pyval -> result pyval.
Variable py_eq : pyval -> pyval -> bool.

Definition bind_tools (self : ChatWatsonx) (tools : list pyval)
           (tool_choice : pyval) (kwargs : dict) : result dict :=
  if negb (mem_str (model_id self) bind_tools_supported_models)
  then Raise Warning
  else
    formatted_tools <- mapM convert_to_openai_tool tools ;;
    Ok (dict_merge [(u "tools", PyList formatted_tools)] kwargs).

Definition bind_functions (self : ChatWatsonx) (functions : list pyval)
           (function_call : pyval) (kwargs : dict) : result dict :=
  formatted_functions <- mapM convert_to_openai_function functions ;;
  kwargs1 <-
    match function_call with
    | PyNone => Ok kwargs
    | _ =>
        let function_call1 :=
          if names_function function_call
          then PyDict [(u "name", function_call)]
          else function_call in
        if is_dict function_call1
           && negb (Nat.eqb (List.length formatted_functions) 1)
        then Raise (ValueError
                      (PyStr (u "When specifying `function_call`, you must provide exactly one function.")))
        else
          mismatch <-
            (if is_dict function_call1 then
               match formatted_functions with
               | f0 :: _ =>
                   a <- getitem f0 (u "name") ;;
                   b <- getitem function_call1 (u "name") ;;
                   Ok (negb (py_eq a b))
               | [] => Ok false
               end
             else Ok false) ;;
          if (mismatch : bool)
          then Raise (ValueError function_call1)
          else Ok (dict_merge kwargs [(u "function_call", function_call1)])
    end ;;
  Ok (dict_merge [(u "functions", PyList formatted_functions)] kwargs1).

Definition with_structured_output (self : ChatWatsonx)
           (schema : option Schema) (method : pyval) (include_raw : bool)
           (kwargs : dict) : result StructuredOutput :=
  if truthy (PyDict kwargs) then Raise (ValueError (PyDict kwargs))
  else
    let is_pydantic_schema := _is_pydantic_class schema in
    lp <-
      (if eq_str method (u "function_calling") then
         match schema with
         | None =>
             Raise (ValueError
                      (PyStr (u "schema must be specified when method is 'function_calling'. Received None.")))
         | Some sch =>
             llm <- bind_tools self [schema_value sch] (PyBool true) [] ;;
             if is_pydantic_schema
             then Ok (llm, PydanticToolsParser [schema_value sch] true)
             else
               t <- convert_to_openai_tool (schema_value sch) ;;
               f <- getitem t (u "function") ;;
               key_name <- getitem f (u "name") ;;
               Ok (llm, JsonOutputKeyToolsParser key_name true)
         end
       else if eq_str method (u "json_mode") then
         Ok ([(u "response_format",
               PyDict [(u "type", PyStr (u "json_object"))])],
             if is_pydantic_schema
             then PydanticOutputParser schema
             else JsonOutputParser)
       else Raise (ValueError method)) ;;
    Ok {| llm_kwargs := fst lp; output_parser := snd lp;
          with_raw := include_raw |}.

End Binding.

(** *** Vocabulary of the further properties *)

(** The content entry of the dictionary built for a message: an assistant
    message that carries a function call or tool calls in its additional
    keyword arguments turns an empty string into [None]. *)
Definition expected_content (m : BaseMessage) : pyval :=
  match m with
  | AIMessage c k _ _ =>
      if dict_has k (u "function_call") || dict_has k (u "tool_calls")
      then blank_to_none c
      else c
  | _ => msg_content m
  end.

Definition function_with_two_names : BaseMessage :=
  FunctionMessage (PyStr (u "r")) [(u "name", PyStr (u "g"))] (PyStr (u "f")).

Definition plain_json_text : str := uq "{'role': 'tool', 'content': 'ok'}".

Definition plain_json_dict : dict :=
  [(u "role", PyStr (u "tool")); (u "content", PyStr (u "ok"))].

(** The [stop_reason] of an entry, [None] when it is absent. *)
Definition stop_reason_of (res : pyval) : pyval :=
  match res with
  | PyDict r => dict_get_none r (u "stop_reason")
  | _ => PyNone
  end.

Definition stopped_response : dict :=
  [(u "results",
    PyList [PyDict [(u "generated_text", PyStr (u "hello"));
                    (u "stop_reason", PyStr (u "eos_token"))];
            text_result (u "there")]);
   (u "system_fingerprint", PyStr (u "fp1"))].

Definition stopped_chat_result : ChatResult :=
  {| generations :=
       [ {| message := mkAI (PyStr (u "hello")) (PyList []);
            generation_info := [(u "finish_reason", PyStr (u "eos_token"))] |};
         {| message := mkAI (PyStr (u "there")) (PyList []);
            generation_info := [(u "finish_reason", PyNone)] |} ];
     llm_output :=
       [(u "token_usage",
         PyDict [(u "generated_token_count", PyInt 0);
                 (u "input_token_count", PyInt 0)]);
        (u "model_name", PyStr (model_id llama31));
        (u "system_fingerprint", PyStr (u "fp1"))] |}.

(** A dictionary with a [role] and a [content] entry. *)
Definition has_role_content (m : pyval) : bool :=
  match m with
  | PyDict d => dict_has d (u "role") && dict_has d (u "content")
  | _ => false
  end.

Definition is_assistant (m : pyval) : bool :=
  match m with
  | PyDict d => eq_str (dict_get_none d (u "role")) (u "assistant")
  | _ => false
  end.

Definition tool_call_only : BaseMessage :=
  AIMessage (PyStr [])
    [(u "tool_calls", PyList [PyDict tool_call_dict])] (PyList []) None.

(** The instance's default parameters, empty when none are set. *)
Definition default_params (self : ChatWatsonx) : dict :=
  match params self with
  | Some p => p
  | None => []
  end.

Definition stop_conflict_message : pyval :=
  PyStr (u "`stop_sequences` found in both the input and default params.").

(** A system-role dictionary whose content is not a string. *)
Definition bad_system (d : dict) : Prop :=
  is_system (PyDict d) = true
  /\ forall s, dict_get_none d (u "content") <> PyStr s.

Definition with_defaults : ChatWatsonx :=
  {| model_id := u "meta-llama/llama-3-1-70b-instruct";
     params := Some [(u "temperature", PyInt 0); (u "top_k", PyInt 50)] |}.

Definition call_params : dict :=
  [(u "top_k", PyInt 5); (u "max_new_tokens", PyInt 100)].

Definition with_empty_tools : dict :=
  [(u "tools", PyList []); (u "tool_choice", PyStr (u "auto"))].

Definition list_system : list BaseMessage :=
  [SystemMessage (PyList [PyStr (u "Be brief.")]) [];
   HumanMessage (PyStr (u "hi")) []].

(** An input [_get_payload] accepts: a string, or a dictionary whose content
    is present and not [None] unless its role is [assistant]. *)
Definition acceptable (msg : pyval) : bool :=
  match msg with
  | PyStr _ => true
  | PyDict d =>
      match dict_get_default d (u "content") PyNone with
      | PyNone => eq_str (dict_get_none d (u "role")) (u "assistant")
      | _ => true
      end
  | _ => false
  end.

Definition as_payload (msg : pyval) : pyval :=
  match msg with
  | PyStr s => PyDict [(u "role", PyStr (u "user")); (u "content", msg)]
  | _ => msg
  end.

(** The content a chunk gets: [generated_text], or the empty string. *)
Definition delta_content (_dict : dict) : pyval :=
  if truthy (dict_get_none _dict (u "generated_text"))
  then dict_get_none _dict (u "generated_text")
  else PyStr [].

(** A raw tool call with a [function] mapping but no [index]. *)
Definition lacks_index (rtc : pyval) : Prop :=
  exists r f,
    rtc = PyDict r
    /\ dict_get r (u "function") = Some (PyDict f)
    /\ dict_get r (u "index") = None.

(** [dict(x)] on a dictionary: a copy. *)
Definition py_dict_of_dict (v : pyval) : result dict :=
  match v with
  | PyDict d => Ok d
  | _ => Raise TypeError
  end.

Definition tool_use_block : pyval :=
  PyDict [(u "type", PyStr (u "tool_use")); (u "id", PyStr (u "t1"))].

Definition text_block : pyval :=
  PyDict [(u "type", PyStr (u "text")); (u "text", PyStr (u "hi"))].

Definition assistant_delta : dict :=
  [(u "role", PyStr (u "assistant")); (u "generated_text", PyStr (u "He"));
   (u "content", PyStr (u "ignored"))].

Definition good_raw_call : pyval :=
  PyDict [(u "id", PyStr (u "c1")); (u "index", PyInt 0);
          (u "function",
           PyDict [(u "name", PyStr (u "search"));
                   (u "arguments", PyStr (u "{"))])].

Definition raw_call_without_index : pyval :=
  PyDict [(u "id", PyStr (u "c2"));
          (u "function", PyDict [(u "arguments", PyStr (u "}"))])].

Definition tool_calls_delta : dict :=
  [(u "role", PyStr (u "assistant"));
   (u "tool_calls", PyList [good_raw_call; raw_call_without_index])].

Definition identity_tool (tool : pyval) : result pyval := Ok tool.

Definition failing_tool (tool : pyval) : result pyval := Raise TypeError.

Definition py_eq_str (a b : pyval) : bool :=
  match a, b with
  | PyStr s, PyStr t => str_eqb s t
  | _, _ => false
  end.

Definition function_f : pyval := PyDict [(u "name", PyStr (u "f"))].
Definition function_g : pyval := PyDict [(u "name", PyStr (u "g"))].

(** The message kinds [_convert_dict_to_message] has a branch for. *)
Definition handled_kind (m : BaseMessage) : bool :=
  match m with
  | SystemMessage _ _ | HumanMessage _ _ | AIMessage _ _ _ _
  | ToolMessage _ _ _ => true
  | _ => false
  end.

Definition is_str (v : pyval) : bool :=
  match v with PyStr _ => true | _ => false end.

Definition json_user_and_function : list pyval :=
  [PyStr (uq "{'role': 'user', 'content': 'hi'}");
   PyStr (uq "{'role': 'function', 'content': 'r', 'name': 'f'}")].

(** ** Properties *)

(** *** Strings *)

Lemma str_eqb_eq (a b : str) : str_eqb a b = true <-> a = b.
Proof.
  unfold str_eqb. destruct (list_eq_dec N.eq_dec a b); split; congruence.
Qed.

Lemma str_eqb_refl (a : str) : str_eqb a a = true.
Proof. now apply str_eqb_eq. Qed.

Lemma concat_findall_runs (p : char -> bool) (s acc : str) :
  List.concat (findall_runs p acc s) = rev acc ++ filter p s.
Proof.
  revert acc. induction s as [|c r IH]; intros acc; simpl.
  - destruct acc; simpl; now rewrite ?app_nil_r.
  - destruct (p c).
    + rewrite IH. simpl. now rewrite <- app_assoc.
    + rewrite concat_app, IH. simpl.
      destruct acc; simpl; now rewrite ?app_nil_r.
Qed.

(** Joining the matches of a one-class pattern keeps exactly the characters
    of the class. *)
Lemma join_findall_class (p : char -> bool) (s : str) :
  join_empty (findall_class p s) = filter p s.
Proof. unfold join_empty, findall_class. now rewrite concat_findall_runs. Qed.

Lemma replace_char_empty (c : char) (s : str) :
  replace s [c] [] = filter (fun x => negb (N.eqb c x)) s.
Proof.
  unfold replace. induction s as [|x r IH]; simpl; [reflexivity|].
  destruct (N.eqb c x); simpl; [exact IH | now rewrite IH].
Qed.

Lemma hex_fixed_length (k : nat) (n : N) : List.length (hex_fixed k n) = k.
Proof.
  revert n. induction k as [|k IH]; intros n; simpl; [reflexivity|].
  rewrite length_app, IH. simpl. lia.
Qed.

(** A call identifier has 32 characters: it is never empty. *)
Lemma uuid_hex_nonempty (uuid4 : N) : uuid_hex uuid4 <> [].
Proof.
  intros H. pose proof (hex_fixed_length 32 uuid4) as L.
  unfold uuid_hex in H. rewrite H in L. discriminate L.
Qed.

(** *** Tool-call shape detection *)

(** C10: [_is_valid_tool_call_format] accepts a mapping whose [args] mapping
    holds [query], alone or wrapped in a one-element list, and rejects empty
    [args], absent [args] and every two-element list. *)
Theorem C10_tool_call_shape_examples (json_loads : str -> option pyval) :
  let valid :=
    PyDict [(u "args", PyDict [(u "query", PyStr (u "x"))]);
            (u "name", PyStr (u "t"))] in
  _is_valid_tool_call_format json_loads valid = true
  /\ _is_valid_tool_call_format json_loads (PyList [valid]) = true
  /\ _is_valid_tool_call_format json_loads
       (PyDict [(u "args", PyDict []); (u "name", PyStr (u "t"))]) = false
  /\ _is_valid_tool_call_format json_loads
       (PyDict [(u "name", PyStr (u "t"))]) = false
  /\ forall a b : pyval,
       _is_valid_tool_call_format json_loads (PyList [a; b]) = false.
Proof.
  cbv zeta. repeat split; try reflexivity.
  intros a b. unfold _is_valid_tool_call_format. now destruct a.
Qed.

(** The check on a parsed value, spelled out. *)
Lemma valid_format_dict (json_loads : str -> option pyval) (d : dict) :
  _is_valid_tool_call_format json_loads (PyDict d) = true <->
  exists a, dict_get d (u "args") = Some (PyDict a)
            /\ dict_has a (u "query") = true.
Proof.
  unfold _is_valid_tool_call_format. split.
  - destruct (dict_get d (u "args")) as [[| | | | |a]|]; try discriminate.
    intros H. now exists a.
  - intros [a [Ha Hq]]. now rewrite Ha.
Qed.

(** *** Response classification *)

Lemma mapM_update_id_dicts (call_id : str) (ds : list dict) :
  mapM (update_id call_id) (map PyDict ds)
  = Ok (map (fun d => PyDict (dict_merge d [(u "id", PyStr call_id)])) ds).
Proof.
  induction ds as [|d r IH]; simpl; [reflexivity|]. now rewrite IH.
Qed.

(** A single mapping becomes one tool call that carries the call id. *)
Lemma tool_calling_single_dict (json_loads : str -> option pyval)
      (d : dict) (call_id : str) :
  _tool_calling json_loads (PyDict d) call_id
  = Ok (mkAI (PyStr [])
             (PyList [PyDict (dict_set d (u "id") (PyStr call_id))])).
Proof. reflexivity. Qed.

(** A one-element list is unwrapped to the mapping itself, so the loop runs
    over its keys and the first [update] fails. *)
Lemma tool_calling_wrapped_list (json_loads : str -> option pyval)
      (k : str) (v : pyval) (rest : dict) (call_id : str) :
  _tool_calling json_loads (PyList [PyDict ((k, v) :: rest)]) call_id
  = Raise AttributeError.
Proof. reflexivity. Qed.

(** C3: on the one-element-list form of a valid tool call the classification
    raises instead of returning the tool-call message; the single-mapping
    form is classified as described. *)
Theorem C3_wrapped_list_raises (call_id : str) :
  _is_valid_tool_call_format Json.json_loads
    (PyList [PyDict tool_call_dict]) = true
  /\ _post_processing Json.json_loads (text_result wrapped_tool_call_text)
       call_id = Raise AttributeError
  /\ _post_processing Json.json_loads (text_result tool_call_text) call_id
     = Ok (mkAI (PyStr [])
                (PyList [PyDict (tool_call_dict ++ [(u "id", PyStr call_id)])])).
Proof. repeat split; vm_compute; reflexivity. Qed.

(** *** Message codec *)

(** C7: the dictionary produced for a message is rejected by the inverse
    conversion, which reads every element with [json.loads]. *)
Theorem C7_round_trip_raises (json_loads : str -> option pyval)
        (m : BaseMessage) :
  match _convert_message_to_dict m with
  | Ok d => _convert_dict_to_message json_loads [PyDict d] = Raise TypeError
  | Raise e => e = TypeError /\ msg_role m = None
  end.
Proof.
  unfold _convert_message_to_dict.
  destruct m; cbn [bind msg_additional_kwargs msg_role];
    try (split; reflexivity);
    match goal with
    | |- context [dict_get ?d (u "name")] =>
        destruct (dict_get d (u "name")); reflexivity
    end.
Qed.

(** Through a JSON string the inverse conversion drops function-role
    entries and cannot build a tool message. *)
Lemma convert_dict_to_message_via_json :
  _convert_dict_to_message Json.json_loads
    [PyStr (uq "{'role': 'function', 'content': 'r', 'name': 'f'}")] = Ok []
  /\ (exists e,
        _convert_dict_to_message Json.json_loads
          [PyStr (uq "{'role': 'tool', 'content': 'r', 'tool_call_id': 'c1'}")]
        = Raise e)
  /\ _convert_dict_to_message Json.json_loads
       [PyStr (uq "{'role': 'user', 'content': 'hi'}")]
     = Ok [HumanMessage (PyStr (u "hi")) []].
Proof.
  split; [vm_compute; reflexivity|].
  split; [eexists; vm_compute; reflexivity | vm_compute; reflexivity].
Qed.

(** *** Response assembler *)

Lemma bind_Ok {A B} (c : result A) (k : A -> result B) (b : B) :
  bind c k = Ok b -> exists a, c = Ok a /\ k a = Ok b.
Proof. destruct c as [a|e]; simpl; [now exists a | discriminate]. Qed.

Ltac bind_inv H :=
  let a := fresh "a" in
  let Ha := fresh "Ha" in
  apply bind_Ok in H; destruct H as [a [Ha H]].

Tactic Notation "bind_as" hyp(H) ident(x) ident(Hx) :=
  apply bind_Ok in H; destruct H as [x [Hx H]].

Lemma dict_get_set_same (d : dict) (k : str) (v : pyval) :
  dict_get (dict_set d k v) k = Some v.
Proof.
  induction d as [|[k' v'] r IH]; simpl.
  - now rewrite str_eqb_refl.
  - destruct (str_eqb k' k) eqn:E; simpl; now rewrite E.
Qed.

Section Assembler.

Variable json_loads : str -> option pyval.

Lemma mapM_update_id_ids (call_id : str) (items tcs : list pyval) :
  mapM (update_id call_id) items = Ok tcs ->
  Forall (fun id => id = PyStr call_id) (map tool_call_id_of tcs).
Proof.
  revert tcs. induction items as [|x r IH]; intros tcs H; simpl in H.
  - injection H as <-. constructor.
  - bind_inv H. bind_inv H. injection H as <-. simpl. constructor.
    + destruct x; try discriminate. simpl in Ha.
      injection Ha as <-. simpl. unfold dict_get_none, dict_get_default.
      now rewrite dict_get_set_same.
    + now apply IH.
Qed.

Lemma tool_calling_shape (raw : pyval) (call_id : str) (m : BaseMessage) :
  _tool_calling json_loads raw call_id = Ok m ->
  exists tcs, m = mkAI (PyStr []) (PyList tcs)
              /\ Forall (fun id => id = PyStr call_id) (map tool_call_id_of tcs).
Proof.
  unfold _tool_calling. intros H.
  bind_inv H. bind_inv H. bind_inv H. bind_inv H.
  injection H as <-. eexists. split; [reflexivity|].
  eapply mapM_update_id_ids; eassumption.
Qed.

(** Every message the classification returns is a fresh assistant message
    without usage metadata. *)
Lemma post_processing_mkAI (res : pyval) (call_id : str) (m : BaseMessage) :
  _post_processing json_loads res call_id = Ok m ->
  exists c t, m = mkAI c t.
Proof.
  unfold _post_processing. destruct res; try discriminate.
  intros H. bind_inv H.
  destruct (_is_valid_tool_call_format json_loads a).
  - apply tool_calling_shape in H. destruct H as [tcs [-> _]]. eauto.
  - destruct a; try discriminate; injection H as <-; eauto.
Qed.

Lemma post_processing_tool_ids (res : pyval) (call_id : str) (m : BaseMessage) :
  _post_processing json_loads res call_id = Ok m ->
  tool_shaped json_loads res = true ->
  Forall (fun id => id = PyStr call_id) (tool_call_ids m).
Proof.
  unfold _post_processing, tool_shaped. destruct res; try discriminate.
  intros H S. bind_inv H. rewrite Ha in S. rewrite S in H.
  apply tool_calling_shape in H. destruct H as [tcs [-> F]]. exact F.
Qed.

(** One iteration: the sums grow by the entry's counts and the message
    receives the running totals when they are not zero. *)
Lemma result_step_spec (call_id : str) (res : pyval) (g0 i0 : Z)
      (gen : ChatGeneration) (g i : Z) :
  result_step json_loads call_id res (g0, i0) = Ok (gen, (g, i)) ->
  g = (g0 + count_of generated_key res)%Z
  /\ i = (i0 + count_of input_key res)%Z
  /\ msg_usage (message gen) = usage_for g i
  /\ exists m0, _post_processing json_loads res call_id = Ok m0
                /\ msg_tool_calls (message gen) = msg_tool_calls m0
                /\ msg_content (message gen) = msg_content m0.
Proof.
  unfold result_step. intros H. bind_as H m0 Hm.
  destruct (post_processing_mkAI _ _ Hm) as [c [t ->]].
  destruct res as [| | | | |r]; try discriminate.
  bind_as H sg Hsg. bind_as H si Hsi. injection H as <- <- <-.
  cbn [fst snd] in *.
  assert (Hg : sg = (g0 + count_of generated_key (PyDict r))%Z).
  { unfold count_of, generated_key.
    destruct (dict_get r (u "generated_token_count")) as [v|].
    - destruct v; try discriminate; simpl in Hsg; congruence.
    - injection Hsg as <-. lia. }
  assert (Hi : si = (i0 + count_of input_key (PyDict r))%Z).
  { unfold count_of, input_key.
    destruct (dict_get r (u "input_token_count")) as [v|].
    - destruct v; try discriminate; simpl in Hsi; congruence.
    - injection Hsi as <-. lia. }
  split; [exact Hg|]. split; [exact Hi|]. split.
  - unfold usage_for. cbn [message truthy isAIMessage mkAI].
    destruct (sg + si =? 0)%Z; reflexivity.
  - exists (mkAI c t). split; [exact Hm|].
    cbn [message truthy isAIMessage mkAI].
    destruct (negb (sg + si =? 0)%Z); split; reflexivity.
Qed.

Lemma results_loop_spec (call_id : str) (items : list pyval) :
  forall (g0 i0 : Z) (gens : list ChatGeneration) (g1 i1 : Z),
    results_loop json_loads call_id items (g0, i0) = Ok (gens, (g1, i1)) ->
    List.length gens = List.length items
    /\ g1 = (g0 + running generated_key items)%Z
    /\ i1 = (i0 + running input_key items)%Z
    /\ forall n gen res,
         nth_error gens n = Some gen ->
         nth_error items n = Some res ->
         msg_usage (message gen)
         = usage_for (g0 + running generated_key (firstn (S n) items))
                     (i0 + running input_key (firstn (S n) items))
         /\ exists m0, _post_processing json_loads res call_id = Ok m0
                       /\ msg_tool_calls (message gen) = msg_tool_calls m0
                       /\ msg_content (message gen) = msg_content m0.
Proof.
  induction items as [|res rest IH]; intros g0 i0 gens g1 i1 H.
  - simpl in H. injection H as <- <- <-. simpl.
    split; [reflexivity|]. split; [lia|]. split; [lia|].
    intros [|n] gen res; discriminate.
  - cbn [results_loop] in H. bind_inv H. destruct a as [gen0 [g i]].
    bind_inv H. destruct a as [gens' [g' i']]. injection H as <- <- <-.
    cbn [fst snd] in *.
    apply result_step_spec in Ha. destruct Ha as [Hg [Hi [Hu Hm]]].
    apply IH in Ha0. destruct Ha0 as [L [Hg' [Hi' Hn]]].
    split; [simpl; now rewrite L|].
    split; [cbn [running]; lia|].
    split; [cbn [running]; lia|].
    intros [|n] gen r Hgen Hr.
    + simpl in Hgen, Hr. injection Hgen as <-. injection Hr as <-.
      split; [|exact Hm].
      rewrite Hu. cbn [firstn running]. f_equal; lia.
    + simpl in Hgen, Hr. destruct (Hn n gen r Hgen Hr) as [Hu' Hm'].
      split; [|exact Hm'].
      rewrite Hu'. subst g i.
      change (firstn (S (S n)) (res :: rest)) with (res :: firstn (S n) rest).
      cbn [running]. f_equal; lia.
Qed.

(** What a successful [_create_chat_result] went through. *)
Lemma create_chat_result_Ok (self : ChatWatsonx) (uuid4 : N) (resp : dict)
      (r : ChatResult) :
  _create_chat_result json_loads self uuid4 (PyDict resp) = Ok r ->
  truthy (dict_get_none resp (u "error")) = false
  /\ exists g i,
       results_loop json_loads (uuid_hex uuid4) (results_of resp) (0%Z, 0%Z)
       = Ok (generations r, (g, i))
       /\ dict_get (llm_output r) (u "token_usage")
          = Some (PyDict [(generated_key, PyInt g); (input_key, PyInt i)]).
Proof.
  unfold _create_chat_result. intros H.
  destruct (truthy (dict_get_none resp (u "error"))); [discriminate|].
  split; [reflexivity|].
  bind_inv H. bind_inv H. bind_inv H. injection H as <-.
  destruct a1 as [gens [g i]]. exists g, i. cbn [generations llm_output fst snd].
  split; [|reflexivity].
  unfold results_of. unfold getitem in Ha.
  destruct (dict_get resp (u "results")); [|discriminate].
  injection Ha as ->. now rewrite Ha0.
Qed.

End Assembler.

(** C4, as stated, fails: an [error] entry holding an empty string, [0] or
    [None] is ignored and the generations are built. *)
Lemma C4_counterexample :
  (forall v, dict_has [(u "error", v); (u "results", PyList [])] (u "error")
             = true)
  /\ (exists out,
        _create_chat_result Json.json_loads llama31 7
          (falsy_error_response (PyStr [])) = Ok out
        /\ generations out = [ok_generation])
  /\ (exists out,
        _create_chat_result Json.json_loads llama31 7
          (falsy_error_response (PyInt 0)) = Ok out
        /\ generations out = [ok_generation])
  /\ (exists out,
        _create_chat_result Json.json_loads llama31 7
          (falsy_error_response PyNone) = Ok out
        /\ generations out = [ok_generation]).
Proof.
  split; [intros v; reflexivity|].
  repeat split; eexists; (split; [vm_compute; reflexivity | reflexivity]).
Qed.

(** C4 (amended): a response whose [error] entry is truthy makes
    [_create_chat_result] raise with that value, whatever [results] holds. *)
Theorem C4_truthy_error_raises (json_loads : str -> option pyval)
        (self : ChatWatsonx) (uuid4 : N) (resp : dict) (v : pyval) :
  dict_get resp (u "error") = Some v ->
  truthy v = true ->
  _create_chat_result json_loads self uuid4 (PyDict resp)
  = Raise (ValueError v).
Proof.
  intros Hv Ht. unfold _create_chat_result, dict_get_none, dict_get_default.
  now rewrite Hv, Ht.
Qed.

Lemma C4_truthy_error_raises_witness :
  _create_chat_result Json.json_loads llama31 7 (PyDict error_response)
  = Raise (ValueError (PyStr (u "quota exceeded"))).
Proof.
  apply (@C4_truthy_error_raises Json.json_loads llama31 7 error_response
           (PyStr (u "quota exceeded"))); reflexivity.
Defined.

(** C5, as stated, fails: two tool calls of one response carry the same
    identifier. *)
Lemma C5_counterexample :
  exists out,
    _create_chat_result Json.json_loads llama31 7
      (PyDict two_tool_calls_response) = Ok out
    /\ result_tool_call_ids out = [PyStr (uuid_hex 7); PyStr (uuid_hex 7)]
    /\ ~ NoDup (result_tool_call_ids out).
Proof.
  eexists. split; [vm_compute; reflexivity|].
  split; [vm_compute; reflexivity|].
  intros H. inversion H as [|x l Hin _]; subst. apply Hin. now left.
Qed.

(** C5 (amended): every tool call built from a tool-call-shaped entry of one
    response carries the call identifier drawn once for that response, which
    has 32 characters. *)
Theorem C5_tool_calls_share_call_id (json_loads : str -> option pyval)
        (self : ChatWatsonx) (uuid4 : N) (resp : dict) (out : ChatResult)
        (n : nat) (res : pyval) (gen : ChatGeneration) :
  _create_chat_result json_loads self uuid4 (PyDict resp) = Ok out ->
  nth_error (results_of resp) n = Some res ->
  nth_error (generations out) n = Some gen ->
  tool_shaped json_loads res = true ->
  Forall (fun id => id = PyStr (uuid_hex uuid4)) (tool_call_ids (message gen))
  /\ List.length (uuid_hex uuid4) = 32.
Proof.
  intros H Hres Hgen Hshape.
  split; [|apply hex_fixed_length].
  apply create_chat_result_Ok in H. destruct H as [_ [g [i [H _]]]].
  apply results_loop_spec in H. destruct H as [_ [_ [_ H]]].
  destruct (H n gen res Hgen Hres) as [_ [m0 [Hm0 [Htc _]]]].
  unfold tool_call_ids. rewrite Htc.
  exact (post_processing_tool_ids _ _ _ Hm0 Hshape).
Qed.

Lemma C5_tool_calls_share_call_id_witness :
  Forall (fun id => id = PyStr (uuid_hex 7))
    (tool_call_ids (message (tool_call_generation (uuid_hex 7))))
  /\ List.length (uuid_hex 7) = 32.
Proof.
  apply (@C5_tool_calls_share_call_id Json.json_loads llama31 7
           two_tool_calls_response (two_tool_calls_result (uuid_hex 7))
           1 (text_result tool_call_text)
           (tool_call_generation (uuid_hex 7)));
    vm_compute; reflexivity.
Defined.




(** *** Plain-text fallback *)

(** C8, as stated, fails: text that is not JSON until its fences are removed
    is still classified as a tool call (and raises for the one-element-list
    form). *)
Lemma C8_counterexample :
  Json.json_loads (cleaned fenced_tool_call_text) = None
  /\ _post_processing Json.json_loads (text_result fenced_tool_call_text)
       (uuid_hex 7)
     = Ok (message (tool_call_generation (uuid_hex 7)))
  /\ Json.json_loads (cleaned fenced_wrapped_text) = None
  /\ _post_processing Json.json_loads (text_result fenced_wrapped_text)
       (uuid_hex 7)
     = Raise AttributeError.
Proof. repeat split; vm_compute; reflexivity. Qed.

(** C8 (amended): when the tag-stripped text is not JSON and, with its
    fences removed, is not a tool-call shape either, the classification
    returns an assistant message without tool calls whose content is the
    text with line feeds removed and every character outside
    [[A-Za-z0-9\s,.-]] dropped. *)
Theorem C8_non_json_is_filtered (json_loads : str -> option pyval)
        (res : dict) (text : str) (call_id : str) :
  dict_get_default res (u "generated_text") (PyStr []) = PyStr text ->
  json_loads (cleaned text) = None ->
  _is_valid_tool_call_format json_loads
    (PyStr (replace (cleaned text) fence [])) = false ->
  let content :=
    filter pattern_class
      (replace (replace (cleaned text) fence []) [10%N] []) in
  _post_processing json_loads (PyDict res) call_id
  = Ok (mkAI (PyStr content) (PyList []))
  /\ Forall (fun c => pattern_class c = true) content
  /\ ~ In 10%N content.
Proof.
  intros Hget Hjson Hshape content. split; [|split].
  - unfold _post_processing. rewrite Hget.
    unfold remove_tags_and_parse, _is_json. rewrite Hjson.
    cbn [truthy bind]. fold fence. rewrite Hshape.
    now rewrite join_findall_class.
  - apply Forall_forall. intros c Hc. apply filter_In in Hc. tauto.
  - intros Hin. apply filter_In in Hin. destruct Hin as [Hin _].
    rewrite replace_char_empty in Hin. apply filter_In in Hin.
    destruct Hin as [_ Hneq]. discriminate Hneq.
Qed.

Lemma C8_non_json_is_filtered_witness :
  _post_processing Json.json_loads (text_result chatty_text) (uuid_hex 7)
  = Ok (mkAI (PyStr (u "Hello,world ok")) (PyList [])).
Proof.
  apply (@C8_non_json_is_filtered Json.json_loads
           [(u "generated_text", PyStr chatty_text)] chatty_text (uuid_hex 7));
    vm_compute; reflexivity.
Defined.

(** *** Prompt templater *)

Lemma renderable_user_hi : renderable user_hi.
Proof. now exists [(u "role", PyStr (u "user")); (u "content", PyStr (u "hi"))],
         (PyStr (u "user")), (u "hi"). Qed.

Section Templater.

Variable py_repr : pyval -> str.
Variable convert_to_messages : list pyval -> result (list BaseMessage).
Variable to_string : list BaseMessage -> result str.

Lemma granite_turn_total (m : pyval) :
  renderable m -> exists t, granite_turn m = Ok t.
Proof.
  intros [d [r [c [-> [Hr Hc]]]]]. unfold granite_turn, getitem, wrap_content.
  rewrite Hr. cbn [bind].
  repeat match goal with
         | |- context [if ?b then _ else _] => destruct b
         end;
    unfold getitem; rewrite Hc; cbn [bind str_add]; eauto.
Qed.

Lemma llama2_turn_total (m : pyval) :
  renderable m -> exists t, llama2_turn m = Ok t.
Proof.
  intros [d [r [c [-> [Hr Hc]]]]].
  unfold llama2_turn, getitem, wrap_content, content_then.
  rewrite Hr. cbn [bind].
  repeat match goal with
         | |- context [if ?b then _ else _] => destruct b
         end;
    unfold getitem; rewrite Hc; cbn [bind str_add]; eauto.
Qed.

Lemma llama31_turn_total (m : pyval) :
  renderable m -> exists t, llama31_turn py_repr m = Ok t.
Proof.
  intros [d [r [c [-> [Hr Hc]]]]]. unfold llama31_turn, getitem.
  rewrite Hr, Hc. cbn [bind].
  repeat match goal with
         | |- context [if ?b then _ else _] => destruct b
         end; eauto.
Qed.

Lemma render_turns_total (turn : pyval -> result str) (messages : list pyval) :
  (forall m, renderable m -> exists t, turn m = Ok t) ->
  Forall renderable messages ->
  forall prompt, exists p, render_turns turn prompt messages = Ok p.
Proof.
  intros Hturn F. induction F as [|m rest Hm F IH]; intros prompt; simpl.
  - eauto.
  - destruct (Hturn m Hm) as [t ->]. cbn [bind]. apply IH.
Qed.

Lemma mem_str_singleton (s x : str) : mem_str s [x] = true -> s = x.
Proof.
  simpl. rewrite orb_false_r. apply str_eqb_eq.
Qed.

(** C6 (amended): for renderable messages, the granite and llama-3.1
    dialects end the prompt with the marker that opens an assistant turn;
    the llama-2 dialect returns the rendered turns and appends nothing; every
    other model id goes to the generic renderer with an empty assistant
    message appended. *)
Theorem C6_final_marker_by_dialect (self : ChatWatsonx)
        (messages : list pyval) :
  Forall renderable messages ->
  (mem_str (model_id self) granite_ids = true
   \/ mem_str (model_id self) llama31_ids = true ->
   exists body,
     _create_chat_prompt py_repr convert_to_messages to_string self messages
     = Ok (body ++ assistant_marker))
  /\ (mem_str (model_id self) llama2_ids = true ->
      exists p,
        render_turns llama2_turn [] messages = Ok p
        /\ _create_chat_prompt py_repr convert_to_messages to_string self
             messages = Ok p)
  /\ (mem_str (model_id self) granite_ids = false ->
      mem_str (model_id self) llama2_ids = false ->
      mem_str (model_id self) llama31_ids = false ->
      _create_chat_prompt py_repr convert_to_messages to_string self messages
      = (ms <- convert_to_messages messages ;;
         to_string (ms ++ [mkAI (PyStr []) (PyList [])]))).
Proof.
  intros F. unfold _create_chat_prompt. split; [|split].
  - intros [Hg|Hl].
    + rewrite Hg.
      destruct (render_turns_total granite_turn granite_turn_total F [])
        as [p ->].
      now exists p.
    + apply mem_str_singleton in Hl. rewrite Hl.
      change (mem_str (u "meta-llama/llama-3-1-70b-instruct") granite_ids)
        with false.
      change (mem_str (u "meta-llama/llama-3-1-70b-instruct") llama2_ids)
        with false.
      change (mem_str (u "meta-llama/llama-3-1-70b-instruct") llama31_ids)
        with true.
      destruct (render_turns_total (llama31_turn py_repr) llama31_turn_total
                  F []) as [p ->].
      now exists p.
  - intros Hl.
    destruct (render_turns_total llama2_turn llama2_turn_total F []) as [p Hp].
    exists p. split; [exact Hp|].
    destruct (mem_str (model_id self) granite_ids) eqn:Hg.
    + exfalso. revert Hl Hg. unfold llama2_ids, granite_ids. simpl.
      rewrite !orb_false_r, !orb_true_iff, !str_eqb_eq.
      intros [->| ->] [H|H]; discriminate H.
    + rewrite Hl. exact Hp.
  - intros -> -> ->. reflexivity.
Qed.

End Templater.

(** C6, as stated, fails: the llama-2 dialect appends no final marker, so an
    empty conversation renders to the empty prompt and a conversation ending
    with an assistant message ends with the marker that opens an
    instruction. *)
Lemma C6_counterexample :
  mem_str (model_id llama2) llama2_ids = true
  /\ _create_chat_prompt Json.py_repr Framework.convert_to_messages
       Framework.to_string llama2 [] = Ok []
  /\ _create_chat_prompt Json.py_repr Framework.convert_to_messages
       Framework.to_string llama2 [user_hi; assistant_hello]
     = Ok (u "hi" ++ nl ++ u "[/INST]" ++ nl
           ++ u "hello" ++ nl ++ u "[INST]" ++ nl ++ nl).
Proof. repeat split. Qed.

Lemma C6_final_marker_by_dialect_witness :
  exists body,
    _create_chat_prompt Json.py_repr Framework.convert_to_messages
      Framework.to_string granite [user_hi]
    = Ok (body ++ assistant_marker).
Proof.
  apply (proj1 (@C6_final_marker_by_dialect Json.py_repr
                  Framework.convert_to_messages Framework.to_string
                  granite [user_hi]
                  (Forall_cons _ renderable_user_hi (Forall_nil _)))).
  left. reflexivity.
Defined.

(** The generic fallback on an unmatched model id ends with the empty
    assistant turn of the framework's stringification. *)
Lemma generic_fallback_example :
  _create_chat_prompt Json.py_repr Framework.convert_to_messages
    Framework.to_string {| model_id := u "google/flan-ul2"; params := None |}
    [user_hi]
  = Ok (u "Human: hi" ++ nl ++ u "AI: ").
Proof. reflexivity. Qed.

(** *** Request construction *)

Lemma str_eqb_false_neq (a b : str) : a <> b -> str_eqb a b = false.
Proof.
  intros H. destruct (str_eqb a b) eqn:E; [|reflexivity].
  apply str_eqb_eq in E. contradiction.
Qed.

Lemma dict_get_set_other (d : dict) (k k' : str) (v : pyval) :
  k <> k' -> dict_get (dict_set d k' v) k = dict_get d k.
Proof.
  intros H. induction d as [|[k0 v0] r IH]; simpl.
  - rewrite str_eqb_false_neq; [reflexivity | congruence].
  - destruct (str_eqb k0 k') eqn:E; simpl.
    + apply str_eqb_eq in E. subst k0.
      rewrite str_eqb_false_neq; [reflexivity | congruence].
    + now rewrite IH.
Qed.

Lemma dict_get_del_other (d : dict) (k k' : str) :
  k <> k' -> dict_get (dict_del d k') k = dict_get d k.
Proof.
  intros H. induction d as [|[k0 v0] r IH]; simpl; [reflexivity|].
  destruct (str_eqb k0 k') eqn:E; simpl.
  - apply str_eqb_eq in E. subst k0.
    rewrite str_eqb_false_neq; [reflexivity | congruence].
  - now rewrite IH.
Qed.

Lemma del_if_present_other (d : dict) (k k' : str) :
  k <> k' -> dict_get (del_if_present d k') k = dict_get d k.
Proof.
  intros H. unfold del_if_present.
  destruct (dict_has d k'); [now apply dict_get_del_other | reflexivity].
Qed.

Lemma dict_has_merge_single (d : dict) (k k' : str) (v : pyval) :
  k <> k' -> dict_has (dict_merge d [(k', v)]) k = dict_has d k.
Proof.
  intros H. unfold dict_has, dict_merge. cbn [fold_left fst snd].
  now rewrite dict_get_set_other.
Qed.

Lemma dict_has_del_if_present (d : dict) (k k' : str) :
  k <> k' -> dict_has (del_if_present d k') k = dict_has d k.
Proof.
  intros H. unfold dict_has. now rewrite del_if_present_other.
Qed.

Lemma str_eqb_neq (a b : str) : str_eqb a b = false -> a <> b.
Proof. intros H E. apply str_eqb_eq in E. congruence. Qed.

Lemma merged_system_app (a b : list str) :
  merged_system (a ++ b) = merged_system a ++ merged_system b.
Proof. unfold merged_system. now rewrite map_app, concat_app. Qed.

Lemma system_contents_app (a b : list pyval) :
  system_contents (a ++ b) = system_contents a ++ system_contents b.
Proof. unfold system_contents. now rewrite flat_map_app. Qed.

Lemma merge_system_total (mds : list dict) :
  Forall system_text mds ->
  forall acc,
    merge_system acc (map PyDict mds)
    = Ok (acc ++ merged_system (system_contents (map PyDict mds))).
Proof.
  intros F. induction F as [|d rest Hd F IH]; intros acc.
  - simpl. now rewrite app_nil_r.
  - cbn [map merge_system].
    change (system_contents (PyDict d :: map PyDict rest))
      with (system_content_of (PyDict d)
            ++ system_contents (map PyDict rest)).
    unfold system_content_of.
    destruct (eq_str (dict_get_none d (u "role")) (u "system")) eqn:E.
    + destruct (Hd E) as [s Hs]. rewrite Hs. cbn [str_add bind].
      rewrite IH, merged_system_app. unfold merged_system at 2.
      cbn [map List.concat]. now rewrite app_nil_r, <- !app_assoc.
    + rewrite IH. reflexivity.
Qed.

Lemma merge_system_Ok (ms : list pyval) :
  forall acc s,
    merge_system acc ms = Ok s ->
    s = acc ++ merged_system (system_contents ms).
Proof.
  induction ms as [|m rest IH]; intros acc s H.
  - simpl in H. injection H as <-. now rewrite app_nil_r.
  - cbn [merge_system] in H. destruct m as [| | | | |d]; try discriminate.
    change (system_contents (PyDict d :: rest))
      with (system_content_of (PyDict d) ++ system_contents rest).
    unfold system_content_of.
    destruct (eq_str (dict_get_none d (u "role")) (u "system")).
    + bind_as H t Ht.
      destruct (dict_get_none d (u "content")); try discriminate.
      injection Ht as <-. apply IH in H. rewrite H, merged_system_app.
      change (merged_system [s0]) with ((s0 ++ reminder) ++ []).
      now rewrite app_nil_r, <- !app_assoc.
    + now apply IH.
Qed.

Lemma is_system_system_dict (content : str) :
  is_system (system_dict content) = true.
Proof. reflexivity. Qed.

Lemma filter_drop_synthetic (chat : list pyval) (content : str) :
  filter (fun m => negb (is_system m)) (chat ++ [system_dict content])
  = filter (fun m => negb (is_system m)) chat.
Proof.
  rewrite filter_app. cbn [filter]. rewrite is_system_system_dict.
  cbn [negb]. now rewrite app_nil_r.
Qed.

Lemma system_contents_system_dict (content : str) :
  system_contents [system_dict content] = [content].
Proof. reflexivity. Qed.

Section Request.

Variable py_repr : pyval -> str.

(** C1 (amended): without a [tools] entry and without a [prompt] entry
    (which would collide with the [prompt] keyword of the call), whenever the
    conversion of the messages and parameters succeeds the prompt handed to
    the collaborator is the text of the empty list, whatever the messages
    are; when the conversion raises, nothing is dispatched. *)
Theorem C1_no_tools_dispatches_empty_list (self : ChatWatsonx)
        (messages : list BaseMessage) (stop : option pyval) (kwargs : dict) :
  dict_has kwargs (u "tools") = false ->
  dict_has kwargs (u "prompt") = false ->
  match _create_message_dicts self messages stop kwargs with
  | Ok mp =>
      _generate_request py_repr self messages stop kwargs
      = Ok (u "[]", dict_merge kwargs [(u "params", PyDict (snd mp))])
  | Raise e =>
      _generate_request py_repr self messages stop kwargs = Raise e
  end.
Proof.
  intros Hno Hprompt. unfold _generate_request.
  destruct (_create_message_dicts self messages stop kwargs) as [mp|e];
    cbn [bind]; [|reflexivity].
  unfold dict_has in Hno. unfold dict_get_none, dict_get_default.
  destruct (dict_get kwargs (u "tools")); [discriminate|].
  cbn [truthy bind fst snd].
  rewrite dict_has_merge_single by discriminate. now rewrite Hprompt.
Qed.

(** C2 (amended): with tools supplied (and no [prompt] entry to collide
    with the [prompt] keyword of the call), the serialised list is one system
    message -- the original system contents in their order and then the
    tool instruction, each followed by the reminder -- followed by the
    non-system messages in their order; [tools] and [tool_choice] are
    removed from the keyword arguments. *)
Theorem C2_tools_system_message_first (self : ChatWatsonx)
        (messages : list BaseMessage) (stop : option pyval) (kwargs : dict)
        (mds : list dict) (params_ : dict) (items tds : list pyval) :
  _create_message_dicts self messages stop kwargs = Ok (mds, params_) ->
  truthy (dict_get_none kwargs (u "tools")) = true ->
  py_iter (dict_get_none kwargs (u "tools")) = Ok items ->
  mapM tool_description items = Ok tds ->
  Forall system_text mds ->
  dict_has kwargs (u "prompt") = false ->
  _generate_request py_repr self messages stop kwargs
  = Ok (json_dumps (PyList (tools_new_prompt py_repr mds tds)),
        dict_merge
          (del_if_present (del_if_present kwargs (u "tools")) (u "tool_choice"))
          [(u "params", PyDict params_)])
  /\ Forall (fun m => is_system m = false)
       (filter (fun m => negb (is_system m)) (map PyDict mds)).
Proof.
  intros Hmd Htools Hiter Htds Hsys Hprompt. split.
  - unfold _generate_request. rewrite Hmd. cbn [bind fst snd].
    rewrite Htools, Hiter. cbn [bind]. rewrite Htds. cbn [bind].
    rewrite filter_drop_synthetic.
    replace (map PyDict mds ++ [system_dict (tool_instruction py_repr tds)])
      with (map PyDict (mds ++ [[(u "role", PyStr (u "system"));
                                 (u "content",
                                  PyStr (tool_instruction py_repr tds))]]))
      by (now rewrite map_app).
    rewrite merge_system_total.
    + cbn [bind fst snd app].
      rewrite dict_has_merge_single by discriminate.
      rewrite !dict_has_del_if_present by discriminate. rewrite Hprompt.
      unfold tools_new_prompt.
      rewrite map_app, system_contents_app. reflexivity.
    + apply Forall_app. split; [exact Hsys|].
      constructor; [|constructor]. intros _. eexists. reflexivity.
  - apply Forall_forall. intros m Hin. apply filter_In in Hin.
    destruct Hin as [_ Hin]. now apply negb_true_iff.
Qed.

(** Every request the tools branch dispatches has that shape. *)
Lemma tools_request_shape (self : ChatWatsonx) (messages : list BaseMessage)
      (stop : option pyval) (kwargs : dict) (prompt : str) (kw : dict) :
  truthy (dict_get_none kwargs (u "tools")) = true ->
  _generate_request py_repr self messages stop kwargs = Ok (prompt, kw) ->
  exists mds params_ tds,
    _create_message_dicts self messages stop kwargs = Ok (mds, params_)
    /\ prompt = json_dumps (PyList (tools_new_prompt py_repr mds tds)).
Proof.
  intros Htools H. unfold _generate_request in H.
  bind_as H mp Hmp. destruct mp as [mds params_]. cbn [fst snd] in H.
  rewrite Htools in H. bind_as H np Hnp.
  bind_as Hnp items Hitems. bind_as Hnp tds Htds. bind_as Hnp s Hs.
  injection Hnp as <-. cbn [fst snd] in H.
  match type of H with
  | (if ?b then _ else _) = _ => destruct b; [discriminate H|]
  end.
  injection H as <- _.
  exists mds, params_, tds. split; [exact Hmp|].
  apply merge_system_Ok in Hs. rewrite Hs. cbn [fst app].
  rewrite filter_drop_synthetic, system_contents_app. reflexivity.
Qed.

End Request.

(** C1, as stated, fails: a message of an unsupported kind, a [stop]
    argument next to a [stop_sequences] parameter, or a [prompt] keyword
    makes [_generate] raise before anything is dispatched. *)
Lemma C1_counterexample :
  dict_has [] (u "tools") = false
  /\ _generate_request Json.py_repr llama31
       [OtherMessage (PyStr (u "hi")) []] None []
     = Raise TypeError
  /\ dict_has with_stop_sequences (u "tools") = false
  /\ _generate_request Json.py_repr llama31
       conversation (Some stop_x) with_stop_sequences
     = Raise (ValueError
                (PyStr (u "`stop_sequences` found in both the input and default params.")))
  /\ dict_has [(u "prompt", PyStr (u "x"))] (u "tools") = false
  /\ _generate_request Json.py_repr llama31 conversation None
       [(u "prompt", PyStr (u "x"))]
     = Raise TypeError.
Proof. repeat split. Qed.

Lemma C1_no_tools_dispatches_empty_list_witness :
  _generate_request Json.py_repr llama31 conversation (Some stop_x) []
  = Ok (u "[]",
        [(u "params", PyDict [(u "stop_sequences", stop_x)])]).
Proof.
  exact (@C1_no_tools_dispatches_empty_list Json.py_repr llama31 conversation
           (Some stop_x) [] eq_refl eq_refl).
Defined.

(** C2, as stated, fails: the tool instruction is appended after the
    original system messages, so the merged content starts with the original
    system content and ends with the instruction. *)
Lemma C2_counterexample :
  exists kw,
    _generate_request Json.py_repr llama31 conversation None with_tools
    = Ok (json_dumps
            (PyList
               [system_dict (be_brief ++ reminder
                             ++ search_instruction ++ reminder);
                PyDict user_hi_dict]),
          kw)
    /\ json_dumps
         (PyList
            [system_dict (be_brief ++ reminder
                          ++ search_instruction ++ reminder);
             PyDict user_hi_dict])
       <> json_dumps
            (PyList
               [system_dict (search_instruction ++ reminder
                             ++ be_brief ++ reminder);
                PyDict user_hi_dict]).
Proof.
  eexists. split; [vm_compute; reflexivity|].
  apply str_eqb_neq. vm_compute. reflexivity.
Qed.

Lemma C2_tools_system_message_first_witness :
  _generate_request Json.py_repr llama31 conversation None with_tools
  = Ok (json_dumps
          (PyList
             [system_dict
                (merged_system [be_brief; search_instruction]);
              PyDict user_hi_dict]),
        [(u "params", PyDict [])])
  /\ Forall (fun m => is_system m = false) [PyDict user_hi_dict].
Proof.
  apply (@C2_tools_system_message_first Json.py_repr llama31 conversation
           None with_tools conversation_dicts [] [search_tool]
           [search_description]).
  - reflexivity.
  - reflexivity.
  - reflexivity.
  - reflexivity.
  - constructor; [|constructor; [|constructor]].
    + intros _. exists be_brief. reflexivity.
    + intros H. discriminate H.
  - reflexivity.
Defined.

(** Messages of the supported kinds always convert. *)
Lemma convert_message_to_dict_supported (m : BaseMessage) :
  msg_role m <> None -> exists d, _convert_message_to_dict m = Ok d.
Proof.
  intros H. unfold _convert_message_to_dict.
  destruct m; cbn [bind msg_additional_kwargs];
    try (exfalso; apply H; reflexivity);
    match goal with
    | |- context [dict_get ?d (u "name")] =>
        destruct (dict_get d (u "name")); eauto
    end.
Qed.

Lemma create_message_dicts_supported (self : ChatWatsonx)
      (messages : list BaseMessage) (kwargs : dict) :
  Forall (fun m => msg_role m <> None) messages ->
  dict_get kwargs (u "params") = None ->
  exists mp, _create_message_dicts self messages None kwargs = Ok mp.
Proof.
  intros F Hp. unfold _create_message_dicts, dict_get_default.
  rewrite Hp. cbn [bind].
  assert (M : exists mds, mapM _convert_message_to_dict messages = Ok mds).
  { induction F as [|m rest Hm F IH]; simpl; [eauto|].
    destruct (@convert_message_to_dict_supported m Hm) as [d ->].
    destruct IH as [mds ->]. cbn [bind]. eauto. }
  destruct M as [mds ->]. cbn [bind]. eauto.
Qed.

(** A tool-call-shaped mapping is classified as one tool call with empty
    content and the call identifier. *)
Lemma post_processing_single_dict (json_loads : str -> option pyval)
      (res : dict) (text : str) (d : dict) (call_id : str) :
  dict_get_default res (u "generated_text") (PyStr []) = PyStr text ->
  json_loads (cleaned text) = Some (PyDict d) ->
  _is_valid_tool_call_format json_loads (PyDict d) = true ->
  _post_processing json_loads (PyDict res) call_id
  = Ok (mkAI (PyStr [])
             (PyList [PyDict (dict_set d (u "id") (PyStr call_id))])).
Proof.
  intros Hget Hjson Hshape. unfold _post_processing. rewrite Hget.
  unfold remove_tags_and_parse, _is_json, _convert_to_json. rewrite Hjson.
  assert (T : truthy (PyDict d) = true).
  { apply valid_format_dict in Hshape. destruct Hshape as [a [Ha _]].
    destruct d; [discriminate Ha | reflexivity]. }
  rewrite T. cbn [bind]. rewrite Hshape. reflexivity.
Qed.

(** ** Further properties of the module *)

(** *** Dictionaries *)

Ltac other_keys :=
  repeat (rewrite dict_get_set_other by (intros E; discriminate E)).

(** *** Message codec, forward direction *)

(** X1: The dictionary of a supported message holds the role of its kind and
    its content; an unsupported kind raises [TypeError]. *)
Theorem convert_message_role_content (m : BaseMessage) :
  match msg_role m with
  | Some r =>
      exists d,
        _convert_message_to_dict m = Ok d
        /\ dict_get d (u "role") = Some (PyStr r)
        /\ dict_get d (u "content") = Some (expected_content m)
  | None => _convert_message_to_dict m = Raise TypeError
  end.
Proof.
  unfold _convert_message_to_dict.
  destruct m as [r c k|c k|c k t um|c k|c k n|c k i|c k];
    cbn [msg_role bind msg_additional_kwargs expected_content msg_content];
    try reflexivity;
    try (destruct (dict_get k (u "name")); eexists;
         (split; [reflexivity|]); other_keys; split; reflexivity).
  unfold dict_has.
  destruct (dict_get k (u "function_call")) as [fc|],
           (dict_get k (u "tool_calls")) as [tc|],
           (dict_get k (u "name")) as [nm|];
    cbn [orb]; eexists; (split; [reflexivity|]); other_keys;
    (split; [reflexivity|]); destruct c as [| | |[|x s]| |]; reflexivity.
Qed.

(** X2: The [tool_calls] entry of an assistant dictionary is always the
    message's own [tool_calls], also when the additional keyword arguments
    carry a [tool_calls] entry. *)
Theorem convert_message_tool_calls (c : pyval) (k : dict) (t : pyval)
        (um : option UsageMetadata) :
  exists d,
    _convert_message_to_dict (AIMessage c k t um) = Ok d
    /\ dict_get d (u "tool_calls") = Some t.
Proof.
  unfold _convert_message_to_dict. cbn [bind msg_additional_kwargs].
  destruct (dict_get k (u "name")); eexists; (split; [reflexivity|]);
    other_keys; apply dict_get_set_same.
Qed.

(** X3: A [name] in the additional keyword arguments ends up under [name],
    replacing the name of a function message. *)
Theorem convert_message_name_override (m : BaseMessage) (n : pyval) :
  msg_role m <> None ->
  dict_get (msg_additional_kwargs m) (u "name") = Some n ->
  exists d,
    _convert_message_to_dict m = Ok d /\ dict_get d (u "name") = Some n.
Proof.
  intros Hr Hn. unfold _convert_message_to_dict. rewrite Hn.
  destruct m; cbn [bind]; try (exfalso; apply Hr; reflexivity);
    eexists; (split; [reflexivity|]); apply dict_get_set_same.
Qed.

Lemma convert_message_name_override_witness :
  exists d,
    _convert_message_to_dict function_with_two_names = Ok d
    /\ dict_get d (u "name") = Some (PyStr (u "g")).
Proof.
  apply (@convert_message_name_override function_with_two_names
           (PyStr (u "g"))).
  - discriminate.
  - reflexivity.
Defined.

(** *** Tool-call emulator *)

(** X4: The shape check parses a string once, looks through exactly one
    wrapping one-element list, and otherwise asks for a mapping whose
    [args] is a mapping with a [query] key. *)
Theorem valid_format_normalisation (json_loads : str -> option pyval) :
  (forall d,
     _is_valid_tool_call_format json_loads (PyList [PyDict d])
     = _is_valid_tool_call_format json_loads (PyDict d))
  /\ (forall l,
        (forall d, l <> [PyDict d]) ->
        _is_valid_tool_call_format json_loads (PyList l) = false)
  /\ (forall s,
        _is_valid_tool_call_format json_loads (PyStr s)
        = match json_loads s with
          | Some (PyStr _) | None => false
          | Some v => _is_valid_tool_call_format json_loads v
          end)
  /\ (forall d,
        _is_valid_tool_call_format json_loads (PyDict d) = true <->
        exists a, dict_get d (u "args") = Some (PyDict a)
                  /\ dict_has a (u "query") = true).
Proof.
  split; [reflexivity|]. split; [|split].
  - intros l H. unfold _is_valid_tool_call_format.
    destruct l as [|x [|y r]]; try reflexivity; [|now destruct x].
    destruct x; try reflexivity. exfalso. now apply (H d).
  - intros s. unfold _is_valid_tool_call_format.
    destruct (json_loads s) as [[| | | | |]|]; reflexivity.
  - apply valid_format_dict.
Qed.

(** X5: [_tool_calling] refuses, before any message is built, every list
    that is not a one-element list holding a mapping ([ValueError]) and
    every text that is not JSON ([JSONDecodeError]); a JSON text whose value
    is not a string is treated as that value. *)
Theorem tool_calling_rejections (json_loads : str -> option pyval)
        (call_id : str) :
  (forall l,
     (forall d, l <> [PyDict d]) ->
     _tool_calling json_loads (PyList l) call_id
     = Raise (ValueError
                (PyStr (u "Expected a list with a single dictionary element"))))
  /\ (forall s,
        json_loads s = None ->
        _tool_calling json_loads (PyStr s) call_id = Raise JSONDecodeError)
  /\ (forall s v,
        json_loads s = Some v ->
        (forall t, v <> PyStr t) ->
        _tool_calling json_loads (PyStr s) call_id
        = _tool_calling json_loads v call_id).
Proof.
  unfold _tool_calling. split; [|split].
  - intros l H. destruct l as [|x [|y r]]; try reflexivity.
    + destruct x; try reflexivity. exfalso. now apply (H d).
    + destruct x; reflexivity.
  - intros s ->. reflexivity.
  - intros s v -> H. destruct v; try reflexivity.
    exfalso. now apply (H s0).
Qed.

(** X6: Text that is a non-empty JSON object without the tool-call shape,
    whose [content] is a string or absent and which has no [tool_calls],
    gives an assistant message with that content (the empty string when
    absent) and no tool calls. *)
Theorem post_processing_json_object (json_loads : str -> option pyval)
        (res : dict) (text : str) (d : dict) (c : str) (call_id : str) :
  dict_get_default res (u "generated_text") (PyStr []) = PyStr text ->
  json_loads (cleaned text) = Some (PyDict d) ->
  d <> [] ->
  _is_valid_tool_call_format json_loads (PyDict d) = false ->
  dict_get_default d (u "content") (PyStr []) = PyStr c ->
  dict_get d (u "tool_calls") = None ->
  _post_processing json_loads (PyDict res) call_id
  = Ok (mkAI (PyStr c) (PyList [])).
Proof.
  intros Hget Hjson Hne Hshape Hc Ht. unfold _post_processing. rewrite Hget.
  unfold remove_tags_and_parse, _is_json, _convert_to_json. rewrite Hjson.
  destruct d as [|kv d]; [contradiction|].
  cbn [truthy bind]. rewrite Hshape, Hc.
  unfold dict_get_default at 1. now rewrite Ht.
Qed.

Lemma post_processing_json_object_witness :
  _post_processing Json.json_loads (text_result plain_json_text) (uuid_hex 7)
  = Ok (mkAI (PyStr (u "ok")) (PyList [])).
Proof.
  apply (@post_processing_json_object Json.json_loads
           [(u "generated_text", PyStr plain_json_text)] plain_json_text
           plain_json_dict (u "ok") (uuid_hex 7)).
  - reflexivity.
  - vm_compute. reflexivity.
  - discriminate.
  - reflexivity.
  - reflexivity.
  - reflexivity.
Defined.

(** X7: Text whose JSON value is falsy -- an empty object or list, zero, an
    empty string, [false] or [null] -- is handled as plain text, not as
    JSON. *)
Theorem post_processing_falsy_json (json_loads : str -> option pyval)
        (res : dict) (text : str) (v : pyval) (call_id : str) :
  dict_get_default res (u "generated_text") (PyStr []) = PyStr text ->
  json_loads (cleaned text) = Some v ->
  truthy v = false ->
  _is_valid_tool_call_format json_loads
    (PyStr (replace (cleaned text) fence [])) = false ->
  _post_processing json_loads (PyDict res) call_id
  = Ok (mkAI (PyStr (filter pattern_class
                       (replace (replace (cleaned text) fence []) [10%N] [])))
             (PyList [])).
Proof.
  intros Hget Hjson Hfalsy Hshape. unfold _post_processing. rewrite Hget.
  unfold remove_tags_and_parse, _is_json. rewrite Hjson, Hfalsy.
  cbn [bind]. fold fence. rewrite Hshape. now rewrite join_findall_class.
Qed.

Lemma post_processing_falsy_json_witness :
  _post_processing Json.json_loads (text_result (u " 0 ")) (uuid_hex 7)
  = Ok (mkAI (PyStr (u "0")) (PyList [])).
Proof.
  apply (@post_processing_falsy_json Json.json_loads
           [(u "generated_text", PyStr (u " 0 "))] (u " 0 ") (PyInt 0)
           (uuid_hex 7)); vm_compute; reflexivity.
Defined.

(** X8: Text whose JSON value is truthy but neither an object, a string nor a
    tool-call shape -- a number, [true], a list -- makes the classification
    raise [AttributeError]. *)
Theorem post_processing_other_json_raises (json_loads : str -> option pyval)
        (res : dict) (text : str) (v : pyval) (call_id : str) :
  dict_get_default res (u "generated_text") (PyStr []) = PyStr text ->
  json_loads (cleaned text) = Some v ->
  truthy v = true ->
  _is_valid_tool_call_format json_loads v = false ->
  (forall d, v <> PyDict d) ->
  (forall s, v <> PyStr s) ->
  _post_processing json_loads (PyDict res) call_id = Raise AttributeError.
Proof.
  intros Hget Hjson Htruthy Hshape Hd Hs. unfold _post_processing.
  rewrite Hget. unfold remove_tags_and_parse, _is_json, _convert_to_json.
  rewrite Hjson, Htruthy. cbn [bind]. rewrite Hshape.
  destruct v; try reflexivity.
  - exfalso. now apply (Hs s).
  - exfalso. now apply (Hd d).
Qed.

Lemma post_processing_other_json_raises_witness :
  _post_processing Json.json_loads (text_result (u "[1, 2]")) (uuid_hex 7)
  = Raise AttributeError.
Proof.
  apply (@post_processing_other_json_raises Json.json_loads
           [(u "generated_text", PyStr (u "[1, 2]"))] (u "[1, 2]")
           (PyList [PyInt 1; PyInt 2]) (uuid_hex 7));
    try (vm_compute; reflexivity); intros x H; discriminate H.
Defined.

(** *** Response assembler, further *)

Section AssemblerMore.

Variable json_loads : str -> option pyval.

Lemma result_step_entry (call_id : str) (res : pyval) (sums : Z * Z)
      (gen : ChatGeneration) (sums' : Z * Z) :
  result_step json_loads call_id res sums = Ok (gen, sums') ->
  generation_info gen = [(u "finish_reason", stop_reason_of res)]
  /\ exists m, _post_processing json_loads res call_id = Ok m.
Proof.
  unfold result_step. intros H. bind_as H m0 Hm.
  split; [|now exists m0].
  destruct res as [| | | | |r]; try discriminate.
  bind_as H g Hg. bind_as H i Hi. injection H as <- _. reflexivity.
Qed.

Lemma results_loop_entries (call_id : str) (items : list pyval) :
  forall sums gens sums',
    results_loop json_loads call_id items sums = Ok (gens, sums') ->
    Forall2 (fun res gen =>
               generation_info gen = [(u "finish_reason", stop_reason_of res)]
               /\ exists m, _post_processing json_loads res call_id = Ok m)
            items gens.
Proof.
  induction items as [|res rest IH]; intros sums gens sums' H.
  - simpl in H. injection H as <- _. constructor.
  - cbn [results_loop] in H. bind_as H gs Hgs. bind_as H tl Htl.
    injection H as <- _. destruct gs as [gen s1]. destruct tl as [gens' s2].
    cbn [fst snd] in *. constructor.
    + eapply result_step_entry; eassumption.
    + eapply IH; eassumption.
Qed.

(** X9: Each generation carries the [stop_reason] of its own entry as
    [finish_reason], [None] when the entry has none. *)
Theorem create_chat_result_finish_reasons (self : ChatWatsonx) (uuid4 : N)
        (resp : dict) (out : ChatResult) :
  _create_chat_result json_loads self uuid4 (PyDict resp) = Ok out ->
  Forall2 (fun res gen =>
             generation_info gen = [(u "finish_reason", stop_reason_of res)])
          (results_of resp) (generations out).
Proof.
  intros H. apply create_chat_result_Ok in H.
  destruct H as [_ [g [i [H _]]]]. apply results_loop_entries in H.
  eapply Forall2_impl; [|exact H]. intros res gen [Hinfo _]. exact Hinfo.
Qed.

(** X10: A result is returned only when every entry classifies: one entry on
    which [_post_processing] raises loses the generations of all others. *)
Theorem create_chat_result_all_or_nothing (self : ChatWatsonx) (uuid4 : N)
        (resp : dict) (out : ChatResult) :
  _create_chat_result json_loads self uuid4 (PyDict resp) = Ok out ->
  Forall (fun res =>
            exists m, _post_processing json_loads res (uuid_hex uuid4) = Ok m)
         (results_of resp).
Proof.
  intros H. apply create_chat_result_Ok in H.
  destruct H as [_ [g [i [H _]]]]. apply results_loop_entries in H.
  induction H as [|res gen items gens [_ Hm] _ IH]; constructor; assumption.
Qed.

(** X11: A generation whose running total of tokens is zero -- in particular
    when the entries carry no counts -- has no usage metadata. *)
Theorem create_chat_result_no_usage_at_zero (self : ChatWatsonx) (uuid4 : N)
        (resp : dict) (out : ChatResult) (n : nat) (gen : ChatGeneration) :
  _create_chat_result json_loads self uuid4 (PyDict resp) = Ok out ->
  nth_error (generations out) n = Some gen ->
  (running generated_key (firstn (S n) (results_of resp))
   + running input_key (firstn (S n) (results_of resp)))%Z = 0%Z ->
  msg_usage (message gen) = None.
Proof.
  intros H Hgen Hzero. apply create_chat_result_Ok in H.
  destruct H as [_ [g [i [H _]]]]. apply results_loop_spec in H.
  destruct H as [L [_ [_ Hn]]].
  destruct (nth_error (results_of resp) n) as [res|] eqn:Hres.
  - destruct (Hn n gen res Hgen Hres) as [Hu _]. rewrite Hu.
    unfold usage_for. cbn [Z.add]. rewrite Hzero. reflexivity.
  - apply nth_error_None in Hres.
    assert (n < List.length (generations out))
      by (apply nth_error_Some; congruence).
    lia.
Qed.

(** X12: With no truthy [error], an empty [results] list gives a result without
    generations and with zero token usage; a missing [results] entry raises
    [KeyError]. *)
Theorem create_chat_result_no_results (self : ChatWatsonx) (uuid4 : N)
        (resp : dict) :
  truthy (dict_get_none resp (u "error")) = false ->
  (dict_get resp (u "results") = Some (PyList []) ->
   _create_chat_result json_loads self uuid4 (PyDict resp)
   = Ok {| generations := [];
           llm_output :=
             [(u "token_usage",
               PyDict [(u "generated_token_count", PyInt 0);
                       (u "input_token_count", PyInt 0)]);
              (u "model_name", PyStr (model_id self));
              (u "system_fingerprint",
               dict_get_default resp (u "system_fingerprint") (PyStr []))] |})
  /\ (dict_get resp (u "results") = None ->
      _create_chat_result json_loads self uuid4 (PyDict resp)
      = Raise (KeyError (u "results"))).
Proof.
  intros He. unfold _create_chat_result. rewrite He. unfold getitem.
  split; intros ->; reflexivity.
Qed.

End AssemblerMore.

Lemma create_chat_result_finish_reasons_witness :
  Forall2 (fun res gen =>
             generation_info gen = [(u "finish_reason", stop_reason_of res)])
          (results_of stopped_response) (generations stopped_chat_result).
Proof.
  apply (@create_chat_result_finish_reasons Json.json_loads llama31 7
           stopped_response stopped_chat_result).
  vm_compute. reflexivity.
Defined.

Lemma create_chat_result_all_or_nothing_witness :
  Forall (fun res =>
            exists m, _post_processing Json.json_loads res (uuid_hex 7) = Ok m)
         (results_of stopped_response).
Proof.
  apply (@create_chat_result_all_or_nothing Json.json_loads llama31 7
           stopped_response stopped_chat_result).
  vm_compute. reflexivity.
Defined.

Lemma create_chat_result_no_usage_at_zero_witness :
  msg_usage (mkAI (PyStr (u "there")) (PyList [])) = None.
Proof.
  apply (@create_chat_result_no_usage_at_zero Json.json_loads llama31 7
           stopped_response stopped_chat_result 1
           {| message := mkAI (PyStr (u "there")) (PyList []);
              generation_info := [(u "finish_reason", PyNone)] |}).
  - vm_compute. reflexivity.
  - reflexivity.
  - reflexivity.
Defined.

Lemma create_chat_result_no_results_witness :
  _create_chat_result Json.json_loads llama31 7 (PyDict [(u "results", PyList [])])
  = Ok {| generations := [];
          llm_output :=
            [(u "token_usage",
              PyDict [(u "generated_token_count", PyInt 0);
                      (u "input_token_count", PyInt 0)]);
             (u "model_name", PyStr (model_id llama31));
             (u "system_fingerprint", PyStr [])] |}.
Proof.
  apply (@create_chat_result_no_results Json.json_loads llama31 7
           [(u "results", PyList [])]); reflexivity.
Defined.

(** One entry that cannot be classified makes the whole response fail. *)
Lemma one_bad_entry_example :
  _create_chat_result Json.json_loads llama31 7
    (PyDict [(u "results",
              PyList [text_result (u "hello");
                      text_result wrapped_tool_call_text])])
  = Raise AttributeError.
Proof. vm_compute. reflexivity. Qed.

(** *** Prompt templater, further *)

Lemma llama31_branch (id : str) :
  mem_str id llama31_ids = true ->
  mem_str id granite_ids = false /\ mem_str id llama2_ids = false.
Proof.
  intros H. apply mem_str_singleton in H. subst id. split; reflexivity.
Qed.

Lemma llama2_branch (id : str) :
  mem_str id llama2_ids = true -> mem_str id granite_ids = false.
Proof.
  unfold llama2_ids, granite_ids. simpl.
  rewrite !orb_false_r, !orb_true_iff, !str_eqb_eq.
  intros [->| ->]; reflexivity.
Qed.

Lemma render_turns_from (turn : pyval -> result str) (messages : list pyval) :
  forall prompt,
    render_turns turn prompt messages
    = (r <- render_turns turn [] messages ;; Ok (prompt ++ r)).
Proof.
  induction messages as [|m rest IH]; intros prompt; cbn [render_turns].
  - cbn [bind]. now rewrite app_nil_r.
  - destruct (turn m) as [t|e]; cbn [bind]; [|reflexivity].
    rewrite (IH (prompt ++ t)), (IH ([] ++ t)).
    destruct (render_turns turn [] rest) as [r|e]; cbn [bind];
      [|reflexivity].
    now rewrite <- app_assoc.
Qed.

Lemma render_turns_app (turn : pyval -> result str) (a b : list pyval) :
  forall prompt,
    render_turns turn prompt (a ++ b)
    = (q <- render_turns turn prompt a ;; render_turns turn q b).
Proof.
  induction a as [|m rest IH]; intros prompt; cbn [app render_turns bind].
  - reflexivity.
  - destruct (turn m) as [t|e]; cbn [bind]; [apply IH | reflexivity].
Qed.

Lemma render_turns_concat (turn : pyval -> result str) (a b : list pyval)
      (pa pb : str) :
  render_turns turn [] a = Ok pa ->
  render_turns turn [] b = Ok pb ->
  render_turns turn [] (a ++ b) = Ok (pa ++ pb).
Proof.
  intros Ha Hb. rewrite render_turns_app, Ha. cbn [bind].
  rewrite render_turns_from, Hb. reflexivity.
Qed.

Section TemplaterMore.

Variable py_repr : pyval -> str.
Variable convert_to_messages : list pyval -> result (list BaseMessage).
Variable to_string : list BaseMessage -> result str.

Local Abbreviation prompt_of :=
  (_create_chat_prompt py_repr convert_to_messages to_string).

Lemma llama31_skips_assistant (messages : list pyval) :
  forallb has_role_content messages = true ->
  forall prompt,
    render_turns (llama31_turn py_repr) prompt messages
    = render_turns (llama31_turn py_repr) prompt
        (filter (fun m => negb (is_assistant m)) messages).
Proof.
  induction messages as [|m rest IH]; intros F prompt; [reflexivity|].
  cbn [forallb] in F. apply andb_true_iff in F. destruct F as [Hm F].
  destruct m as [| | | | |d]; try discriminate Hm.
  cbn [has_role_content] in Hm. apply andb_true_iff in Hm.
  destruct Hm as [Hr Hc]. unfold dict_has in Hr, Hc.
  destruct (dict_get d (u "role")) as [r|] eqn:Er; [|discriminate].
  destruct (dict_get d (u "content")) as [c|] eqn:Ec; [|discriminate].
  assert (T : llama31_turn py_repr (PyDict d)
              = if eq_str r (u "assistant") && negb (eq_str r (u "system"))
                then Ok []
                else llama31_turn py_repr (PyDict d)).
  { destruct (eq_str r (u "assistant")) eqn:Ea; [|reflexivity].
    destruct (eq_str r (u "system")) eqn:Es; [reflexivity|].
    unfold llama31_turn, getitem. rewrite Er, Ec. cbn [bind andb negb].
    now rewrite Es, Ea. }
  cbn [filter is_assistant]. unfold dict_get_none, dict_get_default.
  rewrite Er. destruct (eq_str r (u "assistant")) eqn:Ea; cbn [negb].
  - assert (Es : eq_str r (u "system") = false).
    { destruct r; try discriminate. cbn [eq_str] in *.
      apply str_eqb_eq in Ea. subst s. reflexivity. }
    cbn [render_turns]. rewrite T, Es. cbn [andb negb bind].
    rewrite app_nil_r. now apply IH.
  - cbn [render_turns]. destruct (llama31_turn py_repr (PyDict d));
      cbn [bind]; [now apply IH | reflexivity].
Qed.

(** X13: On the llama-3.1 dialect assistant messages contribute nothing: the
    prompt of a conversation is the prompt of the conversation without its
    assistant messages. *)
Theorem llama31_prompt_omits_assistant (self : ChatWatsonx)
        (messages : list pyval) :
  mem_str (model_id self) llama31_ids = true ->
  forallb has_role_content messages = true ->
  prompt_of self messages
  = prompt_of self (filter (fun m => negb (is_assistant m)) messages).
Proof.
  intros Hid F. unfold _create_chat_prompt.
  destruct (llama31_branch _ Hid) as [-> ->]. rewrite Hid.
  now rewrite <- llama31_skips_assistant.
Qed.

(** X14: The template dialects render message by message: the prompt of two
    conversations put together is their prompts put together, with a single
    final marker on the dialects that have one. *)
Theorem create_chat_prompt_app (self : ChatWatsonx) (a b : list pyval) :
  (mem_str (model_id self) granite_ids = true
   \/ mem_str (model_id self) llama31_ids = true ->
   forall pa pb,
     prompt_of self a = Ok (pa ++ assistant_marker) ->
     prompt_of self b = Ok (pb ++ assistant_marker) ->
     prompt_of self (a ++ b) = Ok (pa ++ pb ++ assistant_marker))
  /\ (mem_str (model_id self) llama2_ids = true ->
      forall pa pb,
        prompt_of self a = Ok pa ->
        prompt_of self b = Ok pb ->
        prompt_of self (a ++ b) = Ok (pa ++ pb)).
Proof.
  unfold _create_chat_prompt. split.
  - intros Hid pa pb Ha Hb.
    assert (Marked : forall turn ms p,
               (q <- render_turns turn [] ms ;; Ok (q ++ assistant_marker))
               = Ok (p ++ assistant_marker) ->
               render_turns turn [] ms = Ok p).
    { intros turn ms p H. bind_as H q Hq. injection H as H.
      apply app_inv_tail in H. now subst q. }
    destruct Hid as [Hid|Hid].
    + rewrite Hid in *. apply Marked in Ha. apply Marked in Hb.
      rewrite (render_turns_concat _ _ _ Ha Hb). cbn [bind].
      now rewrite <- app_assoc.
    + destruct (llama31_branch _ Hid) as [Hg Hl]. rewrite Hg, Hl, Hid in *.
      apply Marked in Ha. apply Marked in Hb.
      rewrite (render_turns_concat _ _ _ Ha Hb). cbn [bind].
      now rewrite <- app_assoc.
  - intros Hid pa pb Ha Hb. rewrite (llama2_branch _ Hid), Hid in *.
    now apply render_turns_concat.
Qed.

Lemma tool_call_only_dict (k : dict) (t : pyval) (um : option UsageMetadata) :
  dict_has k (u "function_call") || dict_has k (u "tool_calls") = true ->
  exists d,
    _convert_message_to_dict (AIMessage (PyStr []) k t um) = Ok d
    /\ dict_get d (u "role") = Some (PyStr (u "assistant"))
    /\ dict_get d (u "content") = Some PyNone.
Proof.
  unfold _convert_message_to_dict, dict_has.
  cbn [bind msg_additional_kwargs].
  destruct (dict_get k (u "function_call")) as [fc|],
           (dict_get k (u "tool_calls")) as [tc|],
           (dict_get k (u "name")) as [nm|];
    cbn [orb]; intros H; try discriminate H;
    eexists; (split; [reflexivity|]); other_keys; split; reflexivity.
Qed.

(** X15: An assistant message that only carries tool calls is converted with
    content [None], which the granite and llama-2 templates cannot render:
    the prompt of a conversation that starts with it raises [TypeError]. *)
Theorem tool_call_only_message_not_rendered (self : ChatWatsonx) (k : dict)
        (t : pyval) (um : option UsageMetadata) (rest : list pyval) :
  dict_has k (u "function_call") || dict_has k (u "tool_calls") = true ->
  mem_str (model_id self) granite_ids = true
  \/ mem_str (model_id self) llama2_ids = true ->
  exists d,
    _convert_message_to_dict (AIMessage (PyStr []) k t um) = Ok d
    /\ prompt_of self (PyDict d :: rest) = Raise TypeError.
Proof.
  intros Hk Hid. destruct (@tool_call_only_dict k t um Hk) as [d [Hd [Hr Hc]]].
  exists d. split; [exact Hd|]. unfold _create_chat_prompt.
  destruct Hid as [Hid|Hid].
  - rewrite Hid. cbn [render_turns].
    assert (T : granite_turn (PyDict d) = Raise TypeError).
    { unfold granite_turn, wrap_content, getitem. rewrite Hr. cbn [bind].
      change (eq_str (PyStr (u "assistant")) (u "system")) with false.
      change (eq_str (PyStr (u "assistant")) (u "assistant")) with true.
      cbn iota. rewrite Hc. reflexivity. }
    rewrite T. reflexivity.
  - rewrite (llama2_branch _ Hid), Hid. cbn [render_turns].
    assert (T : llama2_turn (PyDict d) = Raise TypeError).
    { unfold llama2_turn, content_then, getitem. rewrite Hr. cbn [bind].
      change (eq_str (PyStr (u "assistant")) (u "system")) with false.
      change (eq_str (PyStr (u "assistant")) (u "assistant")) with true.
      cbn iota. rewrite Hc. reflexivity. }
    rewrite T. reflexivity.
Qed.

End TemplaterMore.

Lemma llama31_prompt_omits_assistant_witness :
  _create_chat_prompt Json.py_repr Framework.convert_to_messages
    Framework.to_string llama31 [user_hi; assistant_hello]
  = _create_chat_prompt Json.py_repr Framework.convert_to_messages
      Framework.to_string llama31 [user_hi].
Proof.
  apply (@llama31_prompt_omits_assistant Json.py_repr
           Framework.convert_to_messages Framework.to_string llama31
           [user_hi; assistant_hello]); reflexivity.
Defined.

Lemma create_chat_prompt_app_witness :
  _create_chat_prompt Json.py_repr Framework.convert_to_messages
    Framework.to_string granite ([user_hi] ++ [assistant_hello])
  = Ok ((u "<|user|>:" ++ nl ++ u "hi" ++ nl ++ nl)
        ++ (u "<|assistant|>" ++ nl ++ u "hello" ++ nl ++ nl)
        ++ assistant_marker).
Proof.
  apply (proj1 (@create_chat_prompt_app Json.py_repr
                  Framework.convert_to_messages Framework.to_string
                  granite [user_hi] [assistant_hello])).
  - left. reflexivity.
  - reflexivity.
  - reflexivity.
Defined.

Lemma tool_call_only_message_not_rendered_witness :
  exists d,
    _convert_message_to_dict tool_call_only = Ok d
    /\ _create_chat_prompt Json.py_repr Framework.convert_to_messages
         Framework.to_string granite [PyDict d; user_hi]
       = Raise TypeError.
Proof.
  apply (@tool_call_only_message_not_rendered Json.py_repr
           Framework.convert_to_messages Framework.to_string granite
           [(u "tool_calls", PyList [PyDict tool_call_dict])] (PyList [])
           None [user_hi]).
  - reflexivity.
  - left. reflexivity.
Defined.

(** *** Dictionaries, further *)

Lemma dict_get_set (d : dict) (k k' : str) (v : pyval) :
  dict_get (dict_set d k' v) k
  = if str_eqb k' k then Some v else dict_get d k.
Proof.
  destruct (str_eqb k' k) eqn:E.
  - apply str_eqb_eq in E. subst k'. apply dict_get_set_same.
  - apply dict_get_set_other. intros ->. now rewrite str_eqb_refl in E.
Qed.

Lemma dict_has_merge (b : dict) :
  forall (a : dict) (k : str),
    dict_has (dict_merge a b) k = dict_has a k || dict_has b k.
Proof.
  unfold dict_merge, dict_has.
  induction b as [|[k1 v1] r IH]; intros a k; cbn [fold_left fst snd].
  - cbn [dict_get]. now rewrite orb_false_r.
  - rewrite IH, dict_get_set. cbn [dict_get].
    destruct (str_eqb k1 k); [|reflexivity].
    now destruct (dict_get a k), (dict_get r k).
Qed.

Lemma dict_get_absent (d : dict) (k : str) :
  ~ In k (map fst d) -> dict_get d k = None.
Proof.
  induction d as [|[k0 v0] r IH]; intros H; simpl; [reflexivity|].
  rewrite str_eqb_false_neq.
  - apply IH. intros Hin. apply H. now right.
  - intros ->. apply H. now left.
Qed.

(** Lookup in [a | b] for a dictionary [b], whose keys are distinct. *)
Lemma dict_get_merge (b : dict) :
  NoDup (map fst b) ->
  forall (a : dict) (k : str),
    dict_get (dict_merge a b) k
    = match dict_get b k with
      | Some v => Some v
      | None => dict_get a k
      end.
Proof.
  unfold dict_merge.
  induction b as [|[k1 v1] r IH]; intros N a k; cbn [fold_left fst snd].
  - reflexivity.
  - cbn [map fst] in N. inversion N as [|x l Hnotin N' E]; subst.
    rewrite (IH N'), dict_get_set. cbn [dict_get].
    destruct (str_eqb k1 k) eqn:E.
    + apply str_eqb_eq in E. subst k1.
      now rewrite (dict_get_absent _ _ Hnotin).
    + reflexivity.
Qed.

Lemma dict_get_merge_single (a : dict) (k k' : str) (v : pyval) :
  dict_get (dict_merge a [(k', v)]) k
  = if str_eqb k' k then Some v else dict_get a k.
Proof. apply dict_get_set. Qed.

Lemma dict_del_keys_incl (d : dict) (k x : str) :
  In x (map fst (dict_del d k)) -> In x (map fst d).
Proof.
  induction d as [|[k0 v0] r IH]; simpl; [tauto|].
  destruct (str_eqb k0 k); simpl; tauto.
Qed.

Lemma dict_del_NoDup (d : dict) (k : str) :
  NoDup (map fst d) -> NoDup (map fst (dict_del d k)).
Proof.
  induction d as [|[k0 v0] r IH]; simpl; intros N; [constructor|].
  inversion N as [|x l Hnotin N' E]; subst.
  destruct (str_eqb k0 k); simpl; [exact N'|].
  constructor; [|now apply IH].
  intros Hin. apply Hnotin. eapply dict_del_keys_incl; eassumption.
Qed.

Lemma dict_get_del_same (d : dict) (k : str) :
  NoDup (map fst d) -> dict_get (dict_del d k) k = None.
Proof.
  induction d as [|[k0 v0] r IH]; simpl; intros N; [reflexivity|].
  inversion N as [|x l Hnotin N' E]; subst.
  destruct (str_eqb k0 k) eqn:E; simpl.
  - apply str_eqb_eq in E. subst k0. now apply dict_get_absent.
  - rewrite E. now apply IH.
Qed.

Lemma del_if_present_same (d : dict) (k : str) :
  NoDup (map fst d) -> dict_get (del_if_present d k) k = None.
Proof.
  intros N. unfold del_if_present, dict_has.
  destruct (dict_get d k) eqn:E; [now apply dict_get_del_same | exact E].
Qed.

Lemma del_if_present_NoDup (d : dict) (k : str) :
  NoDup (map fst d) -> NoDup (map fst (del_if_present d k)).
Proof.
  intros N. unfold del_if_present.
  destruct (dict_has d k); [now apply dict_del_NoDup | exact N].
Qed.

(** *** Request construction, further *)

Lemma params_or_empty (self : ChatWatsonx) :
  match params self with
  | Some p => if truthy (PyDict p) then p else []
  | None => []
  end = default_params self.
Proof.
  unfold default_params. destruct (params self) as [[|kv p]|]; reflexivity.
Qed.

Section RequestMore.

Variable py_repr : pyval -> str.

(** X16: A [stop] argument next to a [stop_sequences] parameter -- among the
    instance's defaults or the call's [params] -- raises [ValueError]
    before any message is looked at and before anything is dispatched. *)
Theorem stop_with_stop_sequences_raises (self : ChatWatsonx)
        (messages : list BaseMessage) (stop_value : pyval) (kwargs : dict)
        (extra : dict) :
  dict_get_default kwargs (u "params") (PyDict []) = PyDict extra ->
  dict_has (default_params self) (u "stop_sequences")
  || dict_has extra (u "stop_sequences") = true ->
  _create_message_dicts self messages (Some stop_value) kwargs
  = Raise (ValueError stop_conflict_message)
  /\ _generate_request py_repr self messages (Some stop_value) kwargs
     = Raise (ValueError stop_conflict_message).
Proof.
  intros Hp Hs.
  assert (E : _create_message_dicts self messages (Some stop_value) kwargs
              = Raise (ValueError stop_conflict_message)).
  { unfold _create_message_dicts. rewrite Hp, params_or_empty.
    cbn [bind]. rewrite dict_has_merge, Hs.
    assert (T : truthy (PyDict (dict_merge (default_params self) extra))
                = true).
    { pose proof (dict_has_merge extra (default_params self)
                    (u "stop_sequences")) as M.
      rewrite Hs in M. unfold dict_has in M.
      destruct (dict_merge (default_params self) extra);
        [discriminate M | reflexivity]. }
    rewrite T. reflexivity. }
  split; [exact E|]. unfold _generate_request. now rewrite E.
Qed.

(** X17: The parameters sent along are the instance's defaults overridden by
    the call's [params]; a [stop] argument is added to them as
    [stop_sequences]. *)
Theorem create_message_dicts_params (self : ChatWatsonx)
        (messages : list BaseMessage) (stop : option pyval) (kwargs : dict)
        (extra : dict) (mds : list dict) (ps : dict) :
  _create_message_dicts self messages stop kwargs = Ok (mds, ps) ->
  dict_get_default kwargs (u "params") (PyDict []) = PyDict extra ->
  NoDup (map fst extra) ->
  forall k,
    dict_get ps k
    = match stop with
      | Some stop_value =>
          if str_eqb (u "stop_sequences") k then Some stop_value
          else match dict_get extra k with
               | Some v => Some v
               | None => dict_get (default_params self) k
               end
      | None =>
          match dict_get extra k with
          | Some v => Some v
          | None => dict_get (default_params self) k
          end
      end.
Proof.
  intros H Hp N k. unfold _create_message_dicts in H.
  rewrite Hp, params_or_empty in H. cbn [bind] in H.
  bind_as H params2 H2. bind_as H message_dicts Hm. injection H as _ <-.
  destruct stop as [stop_value|].
  - destruct (truthy (PyDict (dict_merge (default_params self) extra))
              && dict_has (dict_merge (default_params self) extra)
                   (u "stop_sequences")); [discriminate H2|].
    assert (E : params2
                = dict_merge (dict_merge (default_params self) extra)
                    [(u "stop_sequences", stop_value)]) by congruence.
    subst params2. rewrite dict_get_merge_single.
    now rewrite (dict_get_merge extra N).
  - assert (E : params2 = dict_merge (default_params self) extra)
      by congruence.
    subst params2. now apply dict_get_merge.
Qed.

(** X18: With tools supplied, the keyword arguments handed to the collaborator
    hold no [tools] and no [tool_choice], hold the computed parameters under
    [params], and are otherwise those of the call. *)
Theorem tools_request_kwargs (self : ChatWatsonx)
        (messages : list BaseMessage) (stop : option pyval) (kwargs : dict)
        (prompt : str) (kw : dict) :
  NoDup (map fst kwargs) ->
  truthy (dict_get_none kwargs (u "tools")) = true ->
  _generate_request py_repr self messages stop kwargs = Ok (prompt, kw) ->
  dict_get kw (u "tools") = None
  /\ dict_get kw (u "tool_choice") = None
  /\ (exists mds ps,
        _create_message_dicts self messages stop kwargs = Ok (mds, ps)
        /\ dict_get kw (u "params") = Some (PyDict ps))
  /\ forall k,
       k <> u "tools" -> k <> u "tool_choice" -> k <> u "params" ->
       dict_get kw k = dict_get kwargs k.
Proof.
  intros N Htools H. unfold _generate_request in H.
  bind_as H mp Hmp. destruct mp as [mds ps]. cbn [fst snd] in H.
  rewrite Htools in H. bind_as H np Hnp.
  bind_as Hnp items Hitems. bind_as Hnp tds Htds. bind_as Hnp s Hs.
  injection Hnp as <-. cbn [fst snd] in H.
  match type of H with
  | (if ?b then _ else _) = _ => destruct b; [discriminate H|]
  end.
  injection H as _ <-.
  unfold dict_merge. cbn [fold_left fst snd].
  split; [|split; [|split]].
  - rewrite dict_get_set_other by discriminate.
    rewrite del_if_present_other by discriminate.
    now apply del_if_present_same.
  - rewrite dict_get_set_other by discriminate.
    apply del_if_present_same. now apply del_if_present_NoDup.
  - exists mds, ps. split; [exact Hmp | apply dict_get_set_same].
  - intros k H1 H2 H3. rewrite dict_get_set_other by exact H3.
    rewrite del_if_present_other by exact H2.
    now apply del_if_present_other.
Qed.

(** X19: A [tools] entry that is empty or [None] is treated like no tools --
    the prompt is the text of the empty list -- but it stays among the
    keyword arguments handed to the collaborator (there being no [prompt]
    keyword to collide with the call's own). *)
Theorem falsy_tools_request (self : ChatWatsonx)
        (messages : list BaseMessage) (stop : option pyval) (kwargs : dict)
        (mds : list dict) (ps : dict) :
  truthy (dict_get_none kwargs (u "tools")) = false ->
  _create_message_dicts self messages stop kwargs = Ok (mds, ps) ->
  dict_has kwargs (u "prompt") = false ->
  exists kw,
    _generate_request py_repr self messages stop kwargs = Ok (u "[]", kw)
    /\ dict_get kw (u "tools") = dict_get kwargs (u "tools")
    /\ dict_get kw (u "tool_choice") = dict_get kwargs (u "tool_choice").
Proof.
  intros Hfalsy Hmd Hprompt. eexists. unfold _generate_request.
  rewrite Hmd. cbn [bind fst snd]. rewrite Hfalsy. cbn [bind fst snd].
  rewrite dict_has_merge_single by discriminate. rewrite Hprompt.
  split; [reflexivity|]. unfold dict_merge. cbn [fold_left fst snd].
  split; apply dict_get_set_other; discriminate.
Qed.

Lemma merge_system_raises (mds : list dict) (tail : list pyval) :
  Exists bad_system mds ->
  forall acc,
    merge_system acc (map PyDict mds ++ tail) = Raise TypeError.
Proof.
  induction mds as [|d rest IH]; intros E acc; [inversion E|].
  cbn [map app merge_system].
  destruct (eq_str (dict_get_none d (u "role")) (u "system")) eqn:Er.
  - destruct (dict_get_none d (u "content")) as [| | |s| |] eqn:Ec;
      try reflexivity.
    cbn [str_add bind]. apply IH.
    inversion E as [x l [_ Hbad]|x l Hrest]; subst; [|exact Hrest].
    exfalso. now apply (Hbad s).
  - apply IH. inversion E as [x l [Hsys _]|x l Hrest]; subst; [|exact Hrest].
    cbn [is_system] in Hsys. congruence.
Qed.

(** X20: With tools supplied, a system message whose content is not a string
    (a list of blocks, say) makes [_generate] raise [TypeError] before
    anything is dispatched. *)
Theorem tools_with_structured_system_raises (self : ChatWatsonx)
        (messages : list BaseMessage) (stop : option pyval) (kwargs : dict)
        (mds : list dict) (ps : dict) (items tds : list pyval) :
  _create_message_dicts self messages stop kwargs = Ok (mds, ps) ->
  truthy (dict_get_none kwargs (u "tools")) = true ->
  py_iter (dict_get_none kwargs (u "tools")) = Ok items ->
  mapM tool_description items = Ok tds ->
  Exists bad_system mds ->
  _generate_request py_repr self messages stop kwargs = Raise TypeError.
Proof.
  intros Hmd Htools Hiter Htds Hbad. unfold _generate_request.
  rewrite Hmd. cbn [bind fst snd]. rewrite Htools, Hiter. cbn [bind].
  rewrite Htds. cbn [bind]. now rewrite merge_system_raises.
Qed.

End RequestMore.

Lemma stop_with_stop_sequences_raises_witness :
  _create_message_dicts llama31 [OtherMessage (PyStr (u "hi")) []]
    (Some stop_x) with_stop_sequences
  = Raise (ValueError stop_conflict_message)
  /\ _generate_request Json.py_repr llama31
       [OtherMessage (PyStr (u "hi")) []] (Some stop_x) with_stop_sequences
     = Raise (ValueError stop_conflict_message).
Proof.
  apply (@stop_with_stop_sequences_raises Json.py_repr llama31
           [OtherMessage (PyStr (u "hi")) []] stop_x with_stop_sequences
           [(u "stop_sequences", PyList [PyStr (u "y")])]); reflexivity.
Defined.

Lemma create_message_dicts_params_witness :
  dict_get [(u "temperature", PyInt 0); (u "top_k", PyInt 5);
            (u "max_new_tokens", PyInt 100); (u "stop_sequences", stop_x)]
    (u "top_k")
  = Some (PyInt 5).
Proof.
  apply (@create_message_dicts_params with_defaults conversation
           (Some stop_x) [(u "params", PyDict call_params)] call_params
           conversation_dicts
           [(u "temperature", PyInt 0); (u "top_k", PyInt 5);
            (u "max_new_tokens", PyInt 100); (u "stop_sequences", stop_x)]
           eq_refl eq_refl).
  repeat constructor; simpl; intuition discriminate.
Defined.

Lemma tools_request_kwargs_witness :
  dict_get [(u "params", PyDict [])] (u "tools") = None
  /\ dict_get [(u "params", PyDict [])] (u "tool_choice") = None
  /\ (exists mds ps,
        _create_message_dicts llama31 conversation None with_tools
        = Ok (mds, ps)
        /\ dict_get [(u "params", PyDict [])] (u "params") = Some (PyDict ps))
  /\ forall k,
       k <> u "tools" -> k <> u "tool_choice" -> k <> u "params" ->
       dict_get [(u "params", PyDict [])] k = dict_get with_tools k.
Proof.
  apply (@tools_request_kwargs Json.py_repr llama31 conversation None
           with_tools
           (json_dumps
              (PyList (tools_new_prompt Json.py_repr conversation_dicts
                         [search_description])))
           [(u "params", PyDict [])]).
  - repeat constructor; simpl; intuition discriminate.
  - reflexivity.
  - vm_compute. reflexivity.
Defined.

Lemma falsy_tools_request_witness :
  exists kw,
    _generate_request Json.py_repr llama31 conversation None with_empty_tools
    = Ok (u "[]", kw)
    /\ dict_get kw (u "tools") = dict_get with_empty_tools (u "tools")
    /\ dict_get kw (u "tool_choice")
       = dict_get with_empty_tools (u "tool_choice").
Proof.
  apply (@falsy_tools_request Json.py_repr llama31 conversation None
           with_empty_tools conversation_dicts []); reflexivity.
Defined.

Lemma tools_with_structured_system_raises_witness :
  _generate_request Json.py_repr llama31 list_system None with_tools
  = Raise TypeError.
Proof.
  apply (@tools_with_structured_system_raises Json.py_repr llama31
           list_system None with_tools
           [[(u "role", PyStr (u "system"));
             (u "content", PyList [PyStr (u "Be brief.")])];
            user_hi_dict]
           [] [search_tool] [search_description]);
    try reflexivity.
  left. split; [reflexivity|]. intros s H. discriminate H.
Defined.

(** *** Content blocks *)

Lemma filter_idem {A} (p : A -> bool) (l : list A) :
  filter p (filter p l) = filter p l.
Proof.
  induction l as [|x r IH]; simpl; [reflexivity|].
  destruct (p x) eqn:E; simpl; [rewrite E|]; now rewrite ?IH.
Qed.

Lemma format_list (l : list pyval) :
  _format_message_content (PyList l)
  = PyList (filter (fun block => negb (is_tool_use block)) l).
Proof. destruct l; reflexivity. Qed.

(** X21: [_format_message_content] removes exactly the [tool_use] blocks of a
    list, keeps everything else in order, leaves other content alone, and
    applying it twice changes nothing more. *)
Theorem format_message_content_spec (content : pyval) :
  _format_message_content (_format_message_content content)
  = _format_message_content content
  /\ (forall l,
        _format_message_content content = PyList l ->
        Forall (fun block => is_tool_use block = false) l)
  /\ (forall l,
        content = PyList l ->
        _format_message_content content
        = PyList (filter (fun block => negb (is_tool_use block)) l))
  /\ ((forall l, content <> PyList l) ->
      _format_message_content content = content).
Proof.
  split; [|split; [|split]].
  - destruct content; try reflexivity.
    now rewrite !format_list, filter_idem.
  - intros l H. destruct content; try discriminate H.
    rewrite format_list in H. injection H as <-.
    apply Forall_forall. intros b Hb. apply filter_In in Hb.
    now apply negb_true_iff.
  - intros l ->. apply format_list.
  - intros H. destruct content; try reflexivity.
    exfalso. now apply (H l).
Qed.

(** *** Payload *)

Lemma dict_get_merge_absent (b : dict) :
  forall (a : dict) (k : str),
    dict_get b k = None ->
    dict_get (dict_merge a b) k = dict_get a k.
Proof.
  unfold dict_merge.
  induction b as [|[k1 v1] r IH]; intros a k H; cbn [fold_left fst snd].
  - reflexivity.
  - cbn [dict_get] in H. destruct (str_eqb k1 k) eqn:E; [discriminate|].
    rewrite (IH _ _ H), dict_get_set. now rewrite E.
Qed.

Lemma payload_message_acceptable (msg : pyval) :
  payload_message msg
  = if acceptable msg then Ok (as_payload msg) else Raise (ValueError msg).
Proof.
  destruct msg as [| | |s| |d]; try reflexivity.
  unfold payload_message, acceptable, as_payload.
  destruct (dict_get_default d (u "content") PyNone); try reflexivity.
  now destruct (eq_str (dict_get_none d (u "role")) (u "assistant")).
Qed.

(** X22: [_get_payload] wraps strings as user messages and passes
    dictionaries through unchanged; it raises [ValueError] on the first
    input -- every input before it being acceptable -- that is neither, or
    that has no content without being an assistant message.  The messages
    are stored under [messages] unless the parameters carry a [messages]
    entry of their own. *)
Theorem get_payload_spec (inputs : list pyval) (params_ : dict) :
  (forallb acceptable inputs = true ->
   _get_payload inputs params_
   = Ok (dict_merge [(u "messages", PyList (map as_payload inputs))] params_)
   /\ (dict_get params_ (u "messages") = None ->
       exists payload,
         _get_payload inputs params_ = Ok payload
         /\ dict_get payload (u "messages")
            = Some (PyList (map as_payload inputs))))
  /\ (forallb acceptable inputs = false ->
      exists pre msg post,
        inputs = pre ++ msg :: post
        /\ forallb acceptable pre = true
        /\ acceptable msg = false
        /\ _get_payload inputs params_ = Raise (ValueError msg)).
Proof.
  unfold _get_payload. split.
  - intros F.
    assert (M : mapM payload_message inputs = Ok (map as_payload inputs)).
    { induction inputs as [|m rest IH]; [reflexivity|].
      cbn [forallb] in F. apply andb_true_iff in F. destruct F as [Hm F].
      cbn [mapM map]. rewrite payload_message_acceptable, Hm. cbn [bind].
      now rewrite (IH F). }
    rewrite M. cbn [bind]. split; [reflexivity|].
    intros Hp. eexists. split; [reflexivity|].
    now rewrite (dict_get_merge_absent _ _ _ Hp).
  - intros F. induction inputs as [|m rest IH]; [discriminate F|].
    cbn [forallb] in F. cbn [mapM]. rewrite payload_message_acceptable.
    destruct (acceptable m) eqn:Hm; cbn [bind].
    + cbn [andb] in F. destruct (IH F) as [pre [msg [post [E [Hpre [Hbad Hr]]]]]].
      exists (m :: pre), msg, post.
      split; [now rewrite E|].
      split; [cbn [forallb]; now rewrite Hm, Hpre|].
      split; [exact Hbad|].
      destruct (mapM payload_message rest); [discriminate Hr|].
      cbn [bind] in *. exact Hr.
    + exists [], m, rest. repeat split. exact Hm.
Qed.

Lemma get_payload_spec_witness :
  _get_payload [PyStr (u "hi"); assistant_hello] [(u "temperature", PyInt 0)]
  = Ok [(u "messages", PyList [user_hi; assistant_hello]);
        (u "temperature", PyInt 0)].
Proof.
  apply (proj1 (@get_payload_spec [PyStr (u "hi"); assistant_hello]
                  [(u "temperature", PyInt 0)])).
  reflexivity.
Defined.

(** *** Streaming deltas *)

Lemma mapM_app_raise {A B} (f : A -> result B) (pre : list A) (bad : A)
      (post : list A) (bs : list B) (e : exn) :
  mapM f pre = Ok bs -> f bad = Raise e ->
  mapM f (pre ++ bad :: post) = Raise e.
Proof.
  revert bs. induction pre as [|a r IH]; intros bs Hpre Hbad; simpl.
  - now rewrite Hbad.
  - simpl in Hpre. destruct (f a); [|discriminate]. cbn [bind] in *.
    destruct (mapM f r) as [bs'|]; [|discriminate].
    now rewrite (IH bs' eq_refl Hbad).
Qed.

Lemma tool_call_chunk_lacks_index (rtc : pyval) :
  lacks_index rtc -> tool_call_chunk rtc = Raise (KeyError (u "index")).
Proof.
  intros [r [f [-> [Hf Hi]]]]. unfold tool_call_chunk, getitem.
  rewrite Hf. cbn [bind]. now rewrite Hi.
Qed.

Section DeltaProps.

Variable py_dict : pyval -> result dict.
Variable init_tool_call_chunks : dict -> list pyval -> list pyval.

Local Abbreviation delta_chunk :=
  (_convert_delta_to_message_chunk py_dict init_tool_call_chunks).

(** X23: Every chunk has the fixed id [sample_id] and takes its content from
    [generated_text] -- the empty string when that is absent or empty --
    never from a [content] entry. *)
Theorem delta_chunk_content_and_id (_dict : dict) (default_class : ChunkClass)
        (c : BaseMessageChunk) :
  delta_chunk _dict default_class = Ok c ->
  chunk_id c = u "sample_id" /\ chunk_content c = delta_content _dict.
Proof.
  unfold _convert_delta_to_message_chunk. intros H.
  bind_as H k0 Hk0. bind_as H kc Hkc. fold (delta_content _dict) in H.
  repeat match type of H with
         | (if ?b then _ else _) = _ => destruct b
         end;
    try (injection H as <-; split; reflexivity);
    bind_as H x Hx; injection H as <-; split; reflexivity.
Qed.

(** X24: The role [user] or the default class [HumanMessageChunk] gives a human
    chunk: with that default an explicit role such as [assistant] or
    [system] is not used. *)
Theorem delta_human_first (_dict : dict) (default_class : ChunkClass) :
  eq_str (dict_get_none _dict (u "role")) (u "user")
  || is_class default_class HumanChunkClass = true ->
  truthy (dict_get_none _dict (u "function_call")) = false ->
  truthy (dict_get_none _dict (u "tool_calls")) = false ->
  delta_chunk _dict default_class
  = Ok (HumanMessageChunk (delta_content _dict) (u "sample_id")).
Proof.
  intros Hh Hf Ht. unfold _convert_delta_to_message_chunk.
  rewrite Hf, Ht. cbn [bind fst snd]. now rewrite Hh.
Qed.

(** X25: When one raw tool call has no [index], the function passes no
    tool-call chunks at all to the constructor of the assistant chunk --
    those it built for the well-formed calls before it are dropped too --
    while the raw list is still passed under [tool_calls]: the chunks of the
    message are then the ones the framework derives from the raw list. *)
Theorem delta_tool_chunks_all_or_nothing (_dict : dict)
        (default_class : ChunkClass) (pre post : list pyval) (bad : pyval)
        (chunks : list pyval) :
  eq_str (dict_get_none _dict (u "role")) (u "user")
  || is_class default_class HumanChunkClass = false ->
  eq_str (dict_get_none _dict (u "role")) (u "assistant")
  || is_class default_class AIChunkClass = true ->
  truthy (dict_get_none _dict (u "function_call")) = false ->
  dict_get_none _dict (u "tool_calls") = PyList (pre ++ bad :: post) ->
  mapM tool_call_chunk pre = Ok chunks ->
  lacks_index bad ->
  delta_chunk _dict default_class
  = Ok (AIMessageChunk (delta_content _dict)
          [(u "tool_calls", PyList (pre ++ bad :: post))]
          (u "sample_id")
          (init_tool_call_chunks
             [(u "tool_calls", PyList (pre ++ bad :: post))] [])).
Proof.
  intros Hh Ha Hf Ht Hpre Hbad. unfold _convert_delta_to_message_chunk.
  rewrite Hf, Ht. cbn [bind].
  assert (T : truthy (PyList (pre ++ bad :: post)) = true)
    by (destruct pre; reflexivity).
  rewrite T. cbn [py_iter bind].
  rewrite (@mapM_app_raise _ _ tool_call_chunk pre bad post chunks _ Hpre
             (tool_call_chunk_lacks_index Hbad)).
  cbn [except_KeyError bind fst snd]. now rewrite Hh, Ha.
Qed.

End DeltaProps.

Lemma delta_chunk_content_and_id_witness :
  chunk_id (AIMessageChunk (PyStr (u "He")) [] (u "sample_id") [])
  = u "sample_id"
  /\ chunk_content (AIMessageChunk (PyStr (u "He")) [] (u "sample_id") [])
     = delta_content assistant_delta.
Proof.
  apply (@delta_chunk_content_and_id py_dict_of_dict
           rebuilt_tool_call_chunks assistant_delta BaseChunkClass).
  reflexivity.
Defined.

Lemma delta_human_first_witness :
  _convert_delta_to_message_chunk py_dict_of_dict rebuilt_tool_call_chunks
    assistant_delta HumanChunkClass
  = Ok (HumanMessageChunk (PyStr (u "He")) (u "sample_id")).
Proof.
  apply (@delta_human_first py_dict_of_dict rebuilt_tool_call_chunks
           assistant_delta HumanChunkClass);
    reflexivity.
Defined.

Lemma delta_tool_chunks_all_or_nothing_witness :
  _convert_delta_to_message_chunk py_dict_of_dict rebuilt_tool_call_chunks
    tool_calls_delta BaseChunkClass
  = Ok (AIMessageChunk (PyStr [])
          [(u "tool_calls", PyList [good_raw_call; raw_call_without_index])]
          (u "sample_id")
          (rebuilt_tool_call_chunks
             [(u "tool_calls", PyList [good_raw_call; raw_call_without_index])]
             [])).
Proof.
  apply (@delta_tool_chunks_all_or_nothing py_dict_of_dict
           rebuilt_tool_call_chunks tool_calls_delta
           BaseChunkClass [good_raw_call] [] raw_call_without_index
           [PyDict [(u "name", PyStr (u "search"));
                    (u "args", PyStr (u "{"));
                    (u "id", PyStr (u "c1")); (u "index", PyInt 0)]]);
    try reflexivity.
  exists [(u "id", PyStr (u "c2"));
          (u "function", PyDict [(u "arguments", PyStr (u "}"))])],
         [(u "arguments", PyStr (u "}"))].
  repeat split.
Defined.

(** *** Binding *)

Section BindingProps.

Variable convert_to_openai_tool : pyval -> result pyval.
Variable convert_to_openai_function : pyval -> result pyval.
Variable py_eq : pyval -> pyval -> bool.

(** X26: Binding tools on a model outside the supported list raises [Warning]
    whatever the tools are, and the [tool_choice] argument never reaches
    the bound keyword arguments. *)
Theorem bind_tools_gate (self : ChatWatsonx) (tools : list pyval)
        (kwargs : dict) :
  (mem_str (model_id self) bind_tools_supported_models = false ->
   forall tool_choice,
     bind_tools convert_to_openai_tool self tools tool_choice kwargs
     = Raise Warning)
  /\ (forall tool_choice tool_choice',
        bind_tools convert_to_openai_tool self tools tool_choice kwargs
        = bind_tools convert_to_openai_tool self tools tool_choice' kwargs)
  /\ (forall tool_choice bound,
        bind_tools convert_to_openai_tool self tools tool_choice kwargs
        = Ok bound ->
        dict_get kwargs (u "tool_choice") = None ->
        dict_get bound (u "tool_choice") = None).
Proof.
  unfold bind_tools. split; [|split].
  - intros -> tc. reflexivity.
  - reflexivity.
  - intros tc bound H Hk.
    destruct (negb (mem_str (model_id self) bind_tools_supported_models));
      [discriminate H|].
    bind_as H formatted Hf. injection H as <-.
    now rewrite (dict_get_merge_absent _ _ _ Hk).
Qed.

(** X27: Structured output: extra keyword arguments are refused first; the
    function-calling method needs a schema and, through [bind_tools], a
    supported model; the JSON mode works on every model and binds only the
    response format; any other method is refused. *)
Theorem with_structured_output_outcomes (self : ChatWatsonx)
        (schema : option Schema) (method : pyval) (include_raw : bool) :
  (forall kwargs,
     kwargs <> [] ->
     with_structured_output convert_to_openai_tool self schema method
       include_raw kwargs = Raise (ValueError (PyDict kwargs)))
  /\ (eq_str method (u "function_calling") = true ->
      (schema = None ->
       exists v,
         with_structured_output convert_to_openai_tool self schema method
           include_raw [] = Raise (ValueError v))
      /\ (schema <> None ->
          mem_str (model_id self) bind_tools_supported_models = false ->
          with_structured_output convert_to_openai_tool self schema method
            include_raw [] = Raise Warning))
  /\ (eq_str method (u "json_mode") = true ->
      with_structured_output convert_to_openai_tool self schema method
        include_raw []
      = Ok {| llm_kwargs :=
                [(u "response_format",
                  PyDict [(u "type", PyStr (u "json_object"))])];
              output_parser :=
                if _is_pydantic_class schema
                then PydanticOutputParser schema
                else JsonOutputParser;
              with_raw := include_raw |})
  /\ (eq_str method (u "function_calling") = false ->
      eq_str method (u "json_mode") = false ->
      with_structured_output convert_to_openai_tool self schema method
        include_raw [] = Raise (ValueError method)).
Proof.
  unfold with_structured_output. split; [|split; [|split]].
  - intros [|kv kwargs] H; [contradiction | reflexivity].
  - intros Hm. cbn [truthy]. rewrite Hm. split.
    + intros ->. eexists. reflexivity.
    + intros Hs Hid. destruct schema as [sch|]; [|contradiction].
      unfold bind_tools. rewrite Hid. reflexivity.
  - intros Hm. cbn [truthy].
    assert (Hf : eq_str method (u "function_calling") = false).
    { destruct method; try reflexivity. cbn [eq_str] in *.
      apply str_eqb_eq in Hm. subst s. reflexivity. }
    rewrite Hf, Hm. reflexivity.
  - intros Hf Hj. cbn [truthy]. rewrite Hf, Hj. reflexivity.
Qed.

(** X28: Naming the function to call requires exactly one function: with none
    or several, [bind_functions] raises [ValueError]; [auto] and [none] are
    bound as they are with any number of functions. *)
Theorem bind_functions_function_call (self : ChatWatsonx)
        (functions fs : list pyval) (function_call : pyval) (kwargs : dict) :
  mapM convert_to_openai_function functions = Ok fs ->
  (names_function function_call = true ->
   List.length fs <> 1 ->
   exists v,
     bind_functions convert_to_openai_function py_eq self functions
       function_call kwargs = Raise (ValueError v))
  /\ (function_call = PyStr (u "auto") \/ function_call = PyStr (u "none") ->
      bind_functions convert_to_openai_function py_eq self functions
        function_call kwargs
      = Ok (dict_merge [(u "functions", PyList fs)]
              (dict_merge kwargs [(u "function_call", function_call)]))).
Proof.
  intros Hfs. unfold bind_functions. rewrite Hfs. cbn [bind]. split.
  - intros Hn Hlen. destruct function_call; try discriminate Hn.
    rewrite Hn. cbn [is_dict andb].
    destruct (Nat.eqb_spec (List.length fs) 1); [contradiction|].
    eexists. reflexivity.
  - intros [-> | ->]; reflexivity.
Qed.

End BindingProps.

Lemma with_structured_output_outcomes_witness :
  with_structured_output failing_tool granite
    (Some (MappingSchema function_f)) (PyStr (u "function_calling")) true []
  = Raise Warning.
Proof.
  apply (proj2 (proj1 (proj2
           (@with_structured_output_outcomes failing_tool granite
              (Some (MappingSchema function_f))
              (PyStr (u "function_calling")) true)) eq_refl)).
  - discriminate.
  - reflexivity.
Defined.

Lemma bind_tools_gate_witness :
  bind_tools identity_tool granite [function_f] (PyBool true) []
  = Raise Warning.
Proof.
  apply (proj1 (@bind_tools_gate identity_tool granite [function_f] [])).
  reflexivity.
Defined.

Lemma bind_functions_function_call_witness :
  exists v,
    bind_functions identity_tool py_eq_str llama31 [function_f; function_g]
      (PyStr (u "f")) []
    = Raise (ValueError v).
Proof.
  apply (proj1 (@bind_functions_function_call identity_tool py_eq_str llama31
                  [function_f; function_g] [function_f; function_g]
                  (PyStr (u "f")) [] eq_refl)).
  - reflexivity.
  - discriminate.
Defined.

(** *** Control tokens *)

Lemma startswith_app (p s : str) : startswith p (p ++ s) = true.
Proof.
  induction p as [|c r IH]; simpl; [reflexivity|].
  now rewrite N.eqb_refl, IH.
Qed.

Lemma replace_from_skip (old new pre s : str) :
  replace_from old new (List.length pre) (pre ++ s)
  = replace_from old new 0 s.
Proof. induction pre as [|c r IH]; simpl; [reflexivity | exact IH]. Qed.

Lemma replace_prefix (old new s : str) :
  old <> [] -> replace (old ++ s) old new = new ++ replace s old new.
Proof.
  intros H. destruct old as [|c o]; [contradiction|].
  unfold replace. cbn [app replace_from].
  change (startswith (c :: o) (c :: o ++ s))
    with (startswith (c :: o) ((c :: o) ++ s)).
  rewrite startswith_app.
  replace (List.length (c :: o) - 1) with (List.length o) by (simpl; lia).
  now rewrite replace_from_skip.
Qed.

Lemma cleaned_tag_prefix (text : str) :
  cleaned (tags_to_remove ++ text) = cleaned text.
Proof.
  unfold cleaned. rewrite replace_prefix; [reflexivity | discriminate].
Qed.

(** X29: The control-token sequence in front of a generated text does not
    change its classification. *)
Theorem post_processing_ignores_tag_prefix (json_loads : str -> option pyval)
        (tagged plain : dict) (text : str) (call_id : str) :
  dict_get_default tagged (u "generated_text") (PyStr [])
  = PyStr (tags_to_remove ++ text) ->
  dict_get_default plain (u "generated_text") (PyStr []) = PyStr text ->
  _post_processing json_loads (PyDict tagged) call_id
  = _post_processing json_loads (PyDict plain) call_id.
Proof.
  intros Ht Hp. unfold _post_processing. rewrite Ht, Hp.
  unfold remove_tags_and_parse. now rewrite cleaned_tag_prefix.
Qed.

Lemma post_processing_ignores_tag_prefix_witness :
  _post_processing Json.json_loads
    (text_result (tags_to_remove ++ tool_call_text)) (uuid_hex 7)
  = _post_processing Json.json_loads (text_result tool_call_text) (uuid_hex 7).
Proof.
  apply (@post_processing_ignores_tag_prefix Json.json_loads
           [(u "generated_text", PyStr (tags_to_remove ++ tool_call_text))]
           [(u "generated_text", PyStr tool_call_text)] tool_call_text
           (uuid_hex 7)); reflexivity.
Defined.

(** *** Message codec, inverse direction *)

Lemma convert_dict_to_message_one_spec (json_loads : str -> option pyval)
      (message : pyval) (ms : list BaseMessage) :
  _convert_dict_to_message_one json_loads message = Ok ms ->
  is_str message = true
  /\ List.length ms <= 1
  /\ Forall (fun m => handled_kind m = true) ms.
Proof.
  unfold _convert_dict_to_message_one. intros H.
  destruct message as [| | |s| |]; try discriminate H.
  split; [reflexivity|].
  destruct (json_loads s) as [[| | | | |d]|]; try discriminate H.
  destruct (eq_str (dict_get_none d (u "role")) (u "system")).
  { bind_as H c Hc. injection H as <-.
    split; [simpl; lia | repeat constructor]. }
  destruct (eq_str (dict_get_none d (u "role")) (u "assistant")).
  { bind_as H c Hc. injection H as <-.
    split; [simpl; lia | repeat constructor]. }
  destruct (eq_str (dict_get_none d (u "role")) (u "user")).
  { bind_as H c Hc. injection H as <-.
    split; [simpl; lia | repeat constructor]. }
  destruct (eq_str (dict_get_none d (u "role")) (u "tool")).
  { bind_as H c Hc. bind_as H m Hm. discriminate Hm. }
  injection H as <-. split; [simpl; lia | constructor].
Qed.

(** X30: [_convert_dict_to_message] only accepts JSON texts, returns at most one
    message per text, and returns system, human, assistant or tool
    messages only: entries of any other role are dropped without error. *)
Theorem convert_dict_to_message_kinds (json_loads : str -> option pyval)
        (messages : list pyval) (ms : list BaseMessage) :
  _convert_dict_to_message json_loads messages = Ok ms ->
  Forall (fun message => is_str message = true) messages
  /\ List.length ms <= List.length messages
  /\ Forall (fun m => handled_kind m = true) ms.
Proof.
  revert ms. induction messages as [|message rest IH]; intros ms H.
  - simpl in H. injection H as <-. repeat split; constructor.
  - cbn [_convert_dict_to_message] in H. bind_as H one Hone.
    bind_as H tl Htl. injection H as <-.
    apply convert_dict_to_message_one_spec in Hone.
    destruct Hone as [Hs [Hl Hk]]. destruct (IH tl Htl) as [Fs [Ll Fk]].
    split; [now constructor|]. split.
    + rewrite length_app. simpl. lia.
    + apply Forall_app. now split.
Qed.

Lemma convert_dict_to_message_kinds_witness :
  Forall (fun message => is_str message = true) json_user_and_function
  /\ List.length [HumanMessage (PyStr (u "hi")) []]
     <= List.length json_user_and_function
  /\ Forall (fun m => handled_kind m = true) [HumanMessage (PyStr (u "hi")) []].
Proof.
  apply (@convert_dict_to_message_kinds Json.json_loads
           json_user_and_function [HumanMessage (PyStr (u "hi")) []]).
  vm_compute. reflexivity.
Defined.
